(** * sgr-agent-core: context window manager, infinite agent and memory tools

    A shallow embedding of

    - [sgr_deep_research/core/context_manager.py]
      ([ContextWindowManager.count_tokens], [ContextWindowManager.smart_truncate]),
    - [sgr_deep_research/core/agents/sgr_infinite_auto_tool_calling_agent.py]
      ([_prepare_context], [_select_action_phase], [continue_conversation],
      [execute]),
    - [sgr_deep_research/api/endpoints.py] ([create_chat_completion]),
    - [sgr_deep_research/core/tools/mem_tools/read_file_tool.py]
      ([ReadFileTool.__call__]),

    followed by the properties of the specification that concern them. *)

From Stdlib Require Import ZArith Lia Ascii DecimalString.
From stdpp Require Import base option list strings gmap.

Local Open Scope Z_scope.

(** ** Python values used by the code *)

Module Py.

(** [str(n)] for an integer. *)
Definition str_of_int (n : Z) : string :=
  NilZero.string_of_int (Z.to_int n).

(** [len(l)], a Python integer. *)
Definition len {A} (l : list A) : Z := Z.of_nat (length l).

(** [l[-n:]] for a positive literal [n]: the last [n] elements, the whole
    list when it is shorter. *)
Definition slice_last {A} (n : nat) (l : list A) : list A :=
  drop (length l - n)%nat l.

(** Truthiness of a string and of a list. *)
Definition str_truthy (s : string) : bool :=
  match s with EmptyString => false | String _ _ => true end.

Definition list_truthy {A} (l : list A) : bool :=
  match l with [] => false | _ :: _ => true end.

End Py.

(** ** Messages

    A message is a dictionary; the code reads the keys ["role"], ["content"]
    and ["tool_calls"].  A missing ["content"] (or [None]) is [None]; a missing
    ["tool_calls"] is the empty list, which [message.get("tool_calls")] does not
    tell apart from an empty one. *)

(** The ["function"] dictionary of a tool call, with the two keys the code
    reads ([None] is a missing key). *)
Record FunctionCall := mkFunctionCall {
  fn_name : option string;
  fn_arguments : option string
}.

Record ToolCall := mkToolCall {
  function : option FunctionCall
}.

Record Message := mkMessage {
  role : string;
  content : option string;
  tool_calls : list ToolCall
}.

Abbreviation Conversation := (list Message).

(** A dictionary is truthy when it has a key. *)
Definition function_truthy (f : FunctionCall) : bool :=
  match fn_name f, fn_arguments f with
  | None, None => false
  | _, _ => true
  end.

(** [message.get("content")] as a condition. *)
Definition content_truthy (m : Message) : bool :=
  match content m with
  | Some s => Py.str_truthy s
  | None => false
  end.

(** ** context_manager.py *)

(** [tiktoken]'s [Encoding.encode]: text to token ids.  The tokenizer is an
    external library; the manager holds one in [self.encoding]. *)
Definition Encoding := string → list N.

Record ContextWindowManager := mkContextWindowManager {
  max_tokens : Z;
  system_prompt_reserve : Z;
  response_reserve : Z;
  available_tokens : Z;
  encoding : Encoding
}.

Module ContextManager.

(** [ContextWindowManager.__init__].  [encoding_for_model] is
    [tiktoken.encoding_for_model], [None] standing for its [KeyError];
    [cl100k_base] is [tiktoken.get_encoding("cl100k_base")]. *)
Definition __init__
    (encoding_for_model : string → option Encoding) (cl100k_base : Encoding)
    (max_tokens system_prompt_reserve response_reserve : Z) (model : string)
    : ContextWindowManager :=
  {| max_tokens := max_tokens;
     system_prompt_reserve := system_prompt_reserve;
     response_reserve := response_reserve;
     available_tokens := max_tokens - system_prompt_reserve - response_reserve;
     encoding :=
       match encoding_for_model model with
       | Some e => e
       | None => cl100k_base
       end |}.

Section WithManager.

Variable self : ContextWindowManager.

(** The body of [for tool_call in message["tool_calls"]]. *)
Definition count_tool_call (total_tokens : Z) (tool_call : ToolCall) : Z :=
  match function tool_call with
  | Some f =>
      if function_truthy f then
        total_tokens
        + Py.len (encoding self
                    (default "" (fn_name f) +:+ default "" (fn_arguments f)))
      else total_tokens
  | None => total_tokens
  end.

(** The body of [for message in messages]. *)
Definition count_message (total_tokens : Z) (message : Message) : Z :=
  let total_tokens := total_tokens + 4 in
  let total_tokens :=
    if content_truthy message then
      total_tokens + Py.len (encoding self (default "" (content message)))
    else total_tokens in
  if Py.list_truthy (tool_calls message) then
    fold_left count_tool_call (tool_calls message) total_tokens
  else total_tokens.

Definition count_tokens (messages : Conversation) : Z :=
  fold_left count_message messages 0.

(** What one message adds to the total. *)
Definition message_tokens (m : Message) : Z := count_message 0 m.

(** The tool names that make a message worth keeping. *)
Definition important_tools : list string :=
  ["finalanswertool"; "createreporttool"; "websearchtool"].

(** [tc.get("function", {}).get("name", "")] for every tool call. *)
Definition tool_names (msg : Message) : list string :=
  map (λ tc, match function tc with
             | Some f => default "" (fn_name f)
             | None => ""
             end) (tool_calls msg).

Definition any_important (names : list string) : bool :=
  existsb (λ name, bool_decide (name ∈ important_tools)) names.

(** One pass of the loop [for idx, msg in enumerate(conversation[1:], start=1)]
    on the pair [(important_messages, recent_messages)]. *)
Definition categorize_step (preserve_tool_results : bool) (recent_threshold : Z)
    (idx : Z) (msg : Message) (acc : list Message * list Message)
    : list Message * list Message :=
  let '(important_messages, recent_messages) := acc in
  if recent_threshold <=? idx then
    (important_messages, recent_messages ++ [msg])
  else if preserve_tool_results && bool_decide (role msg = "tool") then
    (important_messages ++ [msg], recent_messages)
  else if Py.list_truthy (tool_calls msg) then
    if any_important (tool_names msg) then
      (important_messages ++ [msg], recent_messages)
    else (important_messages, recent_messages)
  else (important_messages, recent_messages).

(** The [elif] branches of that pass alone. *)
Definition categorize_below (preserve_tool_results : bool) (msg : Message)
    (acc : list Message * list Message) : list Message * list Message :=
  let '(important_messages, recent_messages) := acc in
  if preserve_tool_results && bool_decide (role msg = "tool") then
    (important_messages ++ [msg], recent_messages)
  else if Py.list_truthy (tool_calls msg) then
    if any_important (tool_names msg) then
      (important_messages ++ [msg], recent_messages)
    else (important_messages, recent_messages)
  else (important_messages, recent_messages).

Fixpoint categorize (preserve_tool_results : bool) (recent_threshold : Z)
    (idx : Z) (msgs : list Message) (acc : list Message * list Message)
    : list Message * list Message :=
  match msgs with
  | [] => acc
  | msg :: rest =>
      categorize preserve_tool_results recent_threshold (idx + 1) rest
        (categorize_step preserve_tool_results recent_threshold idx msg acc)
  end.

(** The synthetic system message of the fallback. *)
Definition summary (removed_count : Z) : Message :=
  {| role := "system";
     content := Some ("[Context optimized: " +:+ Py.str_of_int removed_count
                      +:+ " intermediate messages removed]");
     tool_calls := [] |}.

(** [[conversation[0]] if conversation else []]. *)
Definition initial_task_of (conversation : Conversation) : list Message :=
  match conversation with
  | c0 :: _ => [c0]
  | [] => []
  end.

Definition smart_truncate (conversation : Conversation)
    (preserve_tool_results : bool) : Conversation :=
  let current_tokens := count_tokens conversation in
  if current_tokens <=? available_tokens self then conversation
  else
    let initial_task := initial_task_of conversation in
    let recent_threshold := Z.max 1 (Py.len conversation - 8) in
    let '(important_messages, recent_messages) :=
      categorize preserve_tool_results recent_threshold 1
        (drop 1 conversation) ([], []) in
    let truncated := initial_task ++ important_messages ++ recent_messages in
    if available_tokens self <? count_tokens truncated then
      let removed_count := Py.len important_messages in
      initial_task ++ [summary removed_count] ++ Py.slice_last 6 recent_messages
    else truncated.

End WithManager.

End ContextManager.

(** ** Effects

    Code that mutates state and may raise is written in a state and exception
    monad: a computation takes the state and either returns a value or raises,
    in both cases with the state it has reached. *)

Module Eff.

Inductive Outcome (S A : Type) : Type :=
| Returned (a : A) (s : S)
| Raised (e : string) (s : S).
Arguments Returned {S A} a s.
Arguments Raised {S A} e s.

Definition M (S A : Type) : Type := S → Outcome S A.

Definition ret {S A} (a : A) : M S A := λ s, Returned a s.

Definition bind {S A B} (c : M S A) (k : A → M S B) : M S B :=
  λ s, match c s with
       | Returned a s' => k a s'
       | Raised e s' => Raised e s'
       end.

Definition raise {S A} (e : string) : M S A := λ s, Raised e s.
Definition get {S} : M S S := λ s, Returned s s.
Definition modify {S} (f : S → S) : M S unit := λ s, Returned tt (f s).

End Eff.

Import Eff.

Global Instance M_ret {S} : MRet (M S) := λ A, @ret S A.
Global Instance M_bind {S} : MBind (M S) := λ A B k c, @bind S A B c k.

(** ** Python lists as objects

    [smart_truncate] and [_prepare_context] build lists and return references
    to them; whether the caller's list is shared or copied is a property of the
    store, so the two functions are given a second time over a store of list
    objects. *)

Module Objects.

Definition loc := positive.

(** The store: every live list object and its elements. *)
Abbreviation heap := (gmap loc (list Message)).

(** A list display, slice or [+]: a new object. *)
Definition new_list (l : list Message) : M heap loc :=
  λ h, let p := fresh (dom h) in Returned p (<[p := l]> h).

(** Reading the elements of a list object. *)
Definition elements_of (p : loc) : M heap (list Message) :=
  λ h, match h !! p with
       | Some l => Returned l h
       | None => Raised "dangling reference" h
       end.

(** [p.append(m)]: the object at [p] is updated in place. *)
Definition append (p : loc) (m : Message) : M heap unit :=
  λ h, match h !! p with
       | Some l => Returned tt (<[p := l ++ [m]]> h)
       | None => Raised "dangling reference" h
       end.


(** [runs c h Q]: from the store [h] the computation [c] returns, with a
    value and a store that satisfy [Q]. *)
Definition runs {A} (c : M heap A) (h : heap) (Q : A → heap → Prop) : Prop :=
  ∃ a h', c h = Returned a h' ∧ Q a h'.

(** [a + b] on two list objects. *)
Definition concat (p q : loc) : M heap loc :=
  (l ← elements_of p; l' ← elements_of q; new_list (l ++ l')).

Section WithManager.

Variable self : ContextWindowManager.

(** The categorising loop, appending to the two list objects. *)
Fixpoint categorize_loop (preserve_tool_results : bool) (recent_threshold : Z)
    (idx : Z) (msgs : list Message) (important_messages recent_messages : loc)
    : M heap unit :=
  match msgs with
  | [] => mret tt
  | msg :: rest =>
      ((if recent_threshold <=? idx then append recent_messages msg
        else if preserve_tool_results && bool_decide (role msg = "tool") then
          append important_messages msg
        else if Py.list_truthy (tool_calls msg) then
          if ContextManager.any_important (ContextManager.tool_names msg) then
            append important_messages msg
          else mret tt
        else mret tt) ;;
       categorize_loop preserve_tool_results recent_threshold (idx + 1) rest
         important_messages recent_messages)
  end.

Definition smart_truncate (conversation : loc) (preserve_tool_results : bool)
    : M heap loc :=
  (conv ← elements_of conversation ;
   let current_tokens := ContextManager.count_tokens self conv in
   if current_tokens <=? available_tokens self then mret conversation
   else
     initial_task ← new_list (ContextManager.initial_task_of conv) ;
     important_messages ← new_list [] ;
     recent_messages ← new_list [] ;
     let recent_threshold := Z.max 1 (Py.len conv - 8) in
     rest ← new_list (drop 1 conv) ;
     msgs ← elements_of rest ;
     categorize_loop preserve_tool_results recent_threshold 1 msgs
       important_messages recent_messages ;;
     t ← concat initial_task important_messages ;
     truncated ← concat t recent_messages ;
     truncated_elems ← elements_of truncated ;
     if available_tokens self <? ContextManager.count_tokens self truncated_elems then
       important_elems ← elements_of important_messages ;
       let removed_count := Py.len important_elems in
       marker ← new_list [ContextManager.summary removed_count] ;
       recent_elems ← elements_of recent_messages ;
       tail ← new_list (Py.slice_last 6 recent_elems) ;
       t' ← concat initial_task marker ;
       concat t' tail
     else mret truncated).


End WithManager.

End Objects.

(** ** Python strings

    A [str] is kept as its UTF-8 bytes.  [lower] covers the Latin and the
    Cyrillic capitals, the alphabets of the stop phrases; [strip] removes the
    ASCII white space. *)

Module PyStr.

Definition byte_in (lo hi : N) (c : ascii) : bool :=
  ((lo <=? N_of_ascii c) && (N_of_ascii c <=? hi))%N.

Definition shift (d : Z) (c : ascii) : ascii :=
  ascii_of_N (Z.to_N (Z.of_N (N_of_ascii c) + d)).

(** [str.lower]: [A-Z] and, in the two-byte sequences with lead byte
    [0xD0], U+0400..U+042F. *)
Fixpoint lower (s : string) : string :=
  match s with
  | EmptyString => EmptyString
  | String c rest =>
      if byte_in 65 90 c then String (shift 32 c) (lower rest)
      else if byte_in 208 208 c then
        match rest with
        | String d rest' =>
            if byte_in 128 143 d then
              String (ascii_of_N 209) (String (shift 16 d) (lower rest'))
            else if byte_in 144 159 d then
              String c (String (shift 32 d) (lower rest'))
            else if byte_in 160 175 d then
              String (ascii_of_N 209) (String (shift (-32) d) (lower rest'))
            else String c (lower rest)
        | EmptyString => String c EmptyString
        end
      else String c (lower rest)
  end.

(** Tab, line feed, vertical tab, form feed, carriage return, the four
    separators U+001C..U+001F and the space. *)
Definition is_space (c : ascii) : bool :=
  byte_in 9 13 c || byte_in 28 32 c.

Fixpoint lstrip (s : string) : string :=
  match s with
  | EmptyString => EmptyString
  | String c rest => if is_space c then lstrip rest else s
  end.

Definition rstrip (s : string) : string :=
  String.rev (lstrip (String.rev s)).

Definition strip (s : string) : string := rstrip (lstrip s).

End PyStr.

(** ** The infinite agent *)

(** Modelled from the spec: [AgentStatesEnum] of [core/models.py], which is
    not among the sources.  The states are those of the state machine of the
    specification, [CREATED → RESEARCHING ⇄ WAITING_FOR_CLARIFICATION →
    COMPLETED | FAILED]; [FINISH_STATES] are its terminal states. *)
Inductive AgentStatesEnum :=
| CREATED
| RESEARCHING
| WAITING_FOR_CLARIFICATION
| COMPLETED
| FAILED.

Global Instance AgentStatesEnum_eq_dec : EqDecision AgentStatesEnum.
Proof. solve_decision. Defined.

Definition FINISH_STATES : list AgentStatesEnum := [COMPLETED; FAILED].

(** The tool the action phase runs.  [execute] tells the classes apart with
    [isinstance(_, FinalAnswerTool)] and with the class name
    ["ClarificationTool"]; a final answer carries its [status]. *)
Inductive Tool :=
| FinalAnswerTool (status : AgentStatesEnum)
| ClarificationTool
| OtherTool (class_name : string).

Definition isinstance_FinalAnswerTool (t : Tool) : bool :=
  match t with FinalAnswerTool _ => true | _ => false end.

Definition is_ClarificationTool (t : Tool) : bool :=
  match t with ClarificationTool => true | _ => false end.

(** [self._context]; [clarification_received] is the flag of the
    [asyncio.Event]. *)
Record ResearchContext := mkResearchContext {
  state : AgentStatesEnum;
  iteration : Z;
  clarification_received : bool;
  current_step_reasoning : option string
}.

(** The attributes of the agent that the code of the class reads or writes.
    [streaming_finished] records [streaming_generator.finish()] and
    [log_saved] records [_save_agent_log()]. *)
Record Agent := mkAgent {
  task : string;
  _context : ResearchContext;
  conversation : Conversation;
  is_infinite : bool;
  user_requested_stop : bool;
  streaming_finished : bool;
  log_saved : bool
}.

Module Agent.

Definition set_state (st : AgentStatesEnum) (a : Agent) : Agent :=
  {| task := task a;
     _context := {| state := st;
                    iteration := iteration (_context a);
                    clarification_received := clarification_received (_context a);
                    current_step_reasoning := current_step_reasoning (_context a) |};
     conversation := conversation a;
     is_infinite := is_infinite a;
     user_requested_stop := user_requested_stop a;
     streaming_finished := streaming_finished a;
     log_saved := log_saved a |}.

Definition set_iteration (n : Z) (a : Agent) : Agent :=
  {| task := task a;
     _context := {| state := state (_context a);
                    iteration := n;
                    clarification_received := clarification_received (_context a);
                    current_step_reasoning := current_step_reasoning (_context a) |};
     conversation := conversation a;
     is_infinite := is_infinite a;
     user_requested_stop := user_requested_stop a;
     streaming_finished := streaming_finished a;
     log_saved := log_saved a |}.

(** [clarification_received.set()] and [.clear()]. *)
Definition set_clarification_received (b : bool) (a : Agent) : Agent :=
  {| task := task a;
     _context := {| state := state (_context a);
                    iteration := iteration (_context a);
                    clarification_received := b;
                    current_step_reasoning := current_step_reasoning (_context a) |};
     conversation := conversation a;
     is_infinite := is_infinite a;
     user_requested_stop := user_requested_stop a;
     streaming_finished := streaming_finished a;
     log_saved := log_saved a |}.

Definition set_current_step_reasoning (r : string) (a : Agent) : Agent :=
  {| task := task a;
     _context := {| state := state (_context a);
                    iteration := iteration (_context a);
                    clarification_received := clarification_received (_context a);
                    current_step_reasoning := Some r |};
     conversation := conversation a;
     is_infinite := is_infinite a;
     user_requested_stop := user_requested_stop a;
     streaming_finished := streaming_finished a;
     log_saved := log_saved a |}.

Definition set_conversation (c : Conversation) (a : Agent) : Agent :=
  {| task := task a;
     _context := _context a;
     conversation := c;
     is_infinite := is_infinite a;
     user_requested_stop := user_requested_stop a;
     streaming_finished := streaming_finished a;
     log_saved := log_saved a |}.

Definition set_user_requested_stop (b : bool) (a : Agent) : Agent :=
  {| task := task a;
     _context := _context a;
     conversation := conversation a;
     is_infinite := is_infinite a;
     user_requested_stop := b;
     streaming_finished := streaming_finished a;
     log_saved := log_saved a |}.

(** The [finally] block of [execute]. *)
Definition finish (a : Agent) : Agent :=
  {| task := task a;
     _context := _context a;
     conversation := conversation a;
     is_infinite := is_infinite a;
     user_requested_stop := user_requested_stop a;
     streaming_finished := true;
     log_saved := true |}.

Definition user_message (text : string) : Message :=
  {| role := "user"; content := Some text; tool_calls := [] |}.

Definition stop_phrases : list string :=
  ["stop"; "finish"; "end"; "завершить"; "стоп"; "закончить"].

(** [user_message.lower().strip() in [...]]. *)
Definition wants_stop (user_message : string) : bool :=
  bool_decide (PyStr.strip (PyStr.lower user_message) ∈ stop_phrases).

(** [continue_conversation]; it has no [await] and runs in one piece. *)
Definition continue_conversation (message : string) (self : Agent) : Agent :=
  if wants_stop message then
    let self := set_user_requested_stop true self in
    let self := set_state COMPLETED self in
    set_conversation
      (conversation self
       ++ [user_message "User requested to stop the conversation."]) self
  else
    let self := set_conversation (conversation self ++ [user_message message]) self in
    if bool_decide (state (_context self) ∈ FINISH_STATES) then
      set_state RESEARCHING self
    else self.

End Agent.

(** The coroutine of [execute]: where it stands, and the agent it runs. *)
Inductive Pc :=
| LoopHead      (* about to test [while not self.user_requested_stop] *)
| Suspended     (* inside [await self._context.clarification_received.wait()] *)
| Finished.     (* the [finally] block has run *)

Record Task := mkTask {
  agent : Agent;
  pc : Pc
}.

(** How a pass of the loop body ends: suspended on the event before
    [continue], or at the end of the body. *)
Inductive LoopCtl := Wait | Next.

Module InfiniteAgent.

Import Agent.

Section WithParent.

(** The methods inherited from [SGRToolCallingResearchAgent], which is not
    among the sources.  Each one is awaited, so what it does to the agent
    includes what request handlers do while it is pending. *)
Variable _reasoning_phase : M Agent string.
Variable super_select_action_phase : string → M Agent Tool.
Variable _action_phase : Tool → M Agent unit.

Definition _select_action_phase (reasoning : string) : M Agent Tool :=
  tool ← super_select_action_phase reasoning;
  self ← get;
  (if isinstance_FinalAnswerTool tool && is_infinite self
      && negb (user_requested_stop self) then
     match tool with
     | FinalAnswerTool status =>
         if bool_decide (status = COMPLETED) then modify (set_state RESEARCHING)
         else mret tt
     | _ => mret tt
     end
   else mret tt);;
  mret tool.

(** [self._context.state = WAITING_FOR_CLARIFICATION] and
    [self._context.clarification_received.clear()]. *)
Definition pause : M Agent unit :=
  modify (set_state WAITING_FOR_CLARIFICATION);;
  modify (set_clarification_received false).

(** One pass of the body of the [while] loop, up to the [await] on the
    event or to the end of the body.  The token count of the pass is only
    logged. *)
Definition loop_body : M Agent (Tool * LoopCtl) :=
  modify (λ self, set_iteration (iteration (_context self) + 1) self);;
  reasoning ← _reasoning_phase;
  modify (set_current_step_reasoning reasoning);;
  action_tool ← _select_action_phase reasoning;
  _action_phase action_tool;;
  if is_ClarificationTool action_tool then
    pause;; mret (action_tool, Wait)
  else
    self ← get;
    if isinstance_FinalAnswerTool action_tool && negb (user_requested_stop self)
    then pause;; mret (action_tool, Wait)
    else mret (action_tool, Next).

Definition task_message (task : string) : Message :=
  user_message
    ("Task: " +:+ task +:+ String (ascii_of_N 10) (String (ascii_of_N 10)
     ("Note: This is an infinite conversation mode. "
      +:+ "I will continue helping until you explicitly say 'stop' or 'finish'."))).

(** [execute] up to the loop. *)
Definition execute_start (self : Agent) : Task :=
  {| agent := set_conversation (conversation self ++ [task_message (task self)]) self;
     pc := LoopHead |}.

(** One scheduling step of [execute]; [None] when the coroutine cannot
    run: it has finished, or it waits on an event that is not set. *)
Definition step (t : Task) : option Task :=
  match pc t with
  | LoopHead =>
      if user_requested_stop (agent t) then
        Some {| agent := finish (agent t); pc := Finished |}
      else
        match loop_body (agent t) with
        | Returned (_, Wait) self => Some {| agent := self; pc := Suspended |}
        | Returned (_, Next) self => Some {| agent := self; pc := LoopHead |}
        | Raised _ self =>
            Some {| agent := finish (set_state FAILED self); pc := Finished |}
        end
  | Suspended =>
      if clarification_received (_context (agent t)) then
        Some {| agent := agent t; pc := LoopHead |}
      else None
  | Finished => None
  end.

(** [n] scheduling steps, stopping where the coroutine cannot run. *)
Fixpoint run (n : nat) (t : Task) : Task :=
  match n with
  | O => t
  | S n' => match step t with
            | Some t' => run n' t'
            | None => t
            end
  end.

End WithParent.

End InfiniteAgent.

(** ** endpoints.py *)

Module Endpoints.

Import Agent.

(** A message of the request. *)
Record ChatMessage := mkChatMessage {
  msg_role : string;
  msg_content : string
}.

(** [None] is the [ValueError]. *)
Definition extract_user_content_from_messages (messages : list ChatMessage)
    : option string :=
  match find (λ message, bool_decide (msg_role message = "user")) (reverse messages) with
  | Some message => Some (msg_content message)
  | None => None
  end.

(** [create_chat_completion], the branch taken when [request.model] names a
    stored [SGRInfiniteAutoToolCallingAgent]: what the handler does to that
    agent before it returns the streaming response. *)
Definition create_chat_completion (messages : list ChatMessage) : M Agent unit :=
  match extract_user_content_from_messages messages with
  | None => raise "User message not found in messages"
  | Some user_message =>
      modify (continue_conversation user_message);;
      agent ← get;
      if negb (user_requested_stop agent) then
        modify (set_clarification_received true)
      else mret tt
  end.

End Endpoints.

(** ** mem_tools/read_file_tool.py *)

Module ReadFileTool.

Inductive Exception :=
| PermissionError (msg : string)
| OtherException (msg : string).

(** [str(e)]. *)
Definition str (e : Exception) : string :=
  match e with PermissionError msg => msg | OtherException msg => msg end.

Inductive Result (A : Type) :=
| Return (a : A)
| Raise (e : Exception).
Arguments Return {A} a.
Arguments Raise {A} e.

(** What the operating system answers: [os.path.exists] and
    [os.path.isfile] give a boolean, [open], [read] and the [close] of the
    [with] statement may raise. *)
Record OS := mkOS {
  os_path_exists : string → bool;
  os_path_isfile : string → bool;
  open : string → Result nat;
  read : nat → Result string;
  close : nat → Result unit
}.

(** [with open(path, "r") as f: body]. *)
Definition with_open {A} (os : OS) (path : string) (body : nat → Result A)
    : Result A :=
  match open os path with
  | Raise e => Raise e
  | Return f =>
      match body f with
      | Return v =>
          match close os f with
          | Return _ => Return v
          | Raise e => Raise e
          end
      | Raise e =>
          match close os f with
          | Return _ => Raise e
          | Raise e' => Raise e'
          end
      end
  end.

(** The body of the [try]. *)
Definition try_block (os : OS) (file_path : string) : Result string :=
  if negb (os_path_exists os file_path) then
    Return ("Error: File " +:+ file_path +:+ " does not exist")
  else if negb (os_path_isfile os file_path) then
    Return ("Error: " +:+ file_path +:+ " is not a file")
  else with_open os file_path (read os).

Definition __call__ (os : OS) (file_path : string) : Result string :=
  match try_block os file_path with
  | Return s => Return s
  | Raise (PermissionError _) =>
      Return ("Error: Permission denied accessing " +:+ file_path)
  | Raise e => Return ("Error: " +:+ str e)
  end.

End ReadFileTool.

(** ** What the truncation selects

    The loop of [smart_truncate] read as a selection: the messages after the
    first one, up to the recency threshold, are the middle; a middle message
    is important when one of the two keeping branches of the loop takes it. *)

Module Selection.

Import ContextManager.

Definition is_important (preserve_tool_results : bool) (msg : Message) : bool :=
  (preserve_tool_results && bool_decide (role msg = "tool"))
  || (Py.list_truthy (tool_calls msg) && any_important (tool_names msg)).

Definition recent_threshold (conversation : Conversation) : nat :=
  Z.to_nat (Z.max 1 (Py.len conversation - 8)).

Definition middle (conversation : Conversation) : list Message :=
  take (recent_threshold conversation - 1)%nat (drop 1 conversation).

Definition important (preserve_tool_results : bool) (conversation : Conversation)
    : list Message :=
  List.filter (is_important preserve_tool_results) (middle conversation).

Definition recent (conversation : Conversation) : list Message :=
  drop (recent_threshold conversation) conversation.

(** The first stage of the truncation. *)
Definition first_stage (preserve_tool_results : bool) (conversation : Conversation)
    : Conversation :=
  initial_task_of conversation
  ++ important preserve_tool_results conversation ++ recent conversation.

(** The messages the fallback writes: a system message whose text has the
    form of [summary]. *)
Definition is_marker (m : Message) : bool :=
  bool_decide (role m = "system")
  && match content m with
     | Some text => String.prefix "[Context optimized: " text
     | None => false
     end.

End Selection.

(** ** Concrete runs *)

Module Scenario.

Import ContextManager.

(** A tokenizer with one token per byte. *)
Definition byte_encoding : Encoding :=
  λ s, map N_of_ascii (String.list_ascii_of_string s).

Definition text (r c : string) : Message :=
  {| role := r; content := Some c; tool_calls := [] |}.

(** Budget 1000 with reserves 200 and 200: 600 tokens available. *)
Definition manager_600 : ContextWindowManager :=
  __init__ (λ _, None) byte_encoding 1000 200 200 "gpt-4".

(** Budget 100 with reserves 15 and 15: 70 tokens available. *)
Definition manager_70 : ContextWindowManager :=
  __init__ (λ _, None) byte_encoding 100 15 15 "gpt-4".

(** Budget 25 with reserves 10 and 10: 5 tokens available. *)
Definition manager_5 : ContextWindowManager :=
  __init__ (λ _, None) byte_encoding 25 10 10 "gpt-4".

(** A task and its answer, 21 tokens. *)
Definition two_messages : Conversation :=
  [text "user" "Task: hi"; text "assistant" "hello"].

(** A task, one long intermediate message and eight short recent ones,
    100 tokens. *)
Definition ten_messages : Conversation :=
  text "user" "Task: hi"
  :: text "assistant" "thinking about the task step by step"
  :: repeat (text "assistant" "ok") 8.

(** A parent class whose reasoning always ends in a final answer, which
    the action phase records in the state. *)
Definition answering_reasoning_phase : M Agent string := mret "answer".

Definition answering_select_action_phase (reasoning : string) : M Agent Tool :=
  mret (FinalAnswerTool COMPLETED).

Definition answering_action_phase (tool : Tool) : M Agent unit :=
  match tool with
  | FinalAnswerTool status => modify (Agent.set_state status)
  | _ => mret tt
  end.

(** An agent as [__init__] leaves it. *)
Definition new_agent : Agent :=
  {| task := "Compare two libraries";
     _context := {| state := CREATED;
                    iteration := 0;
                    clarification_received := false;
                    current_step_reasoning := None |};
     conversation := [];
     is_infinite := true;
     user_requested_stop := false;
     streaming_finished := false;
     log_saved := false |}.

(** The agent after its first pass: it has answered and waits. *)
Definition waiting_task : Task :=
  InfiniteAgent.run answering_reasoning_phase answering_select_action_phase
    answering_action_phase 1 (InfiniteAgent.execute_start new_agent).

(** The request that asks the agent to stop. *)
Definition stop_request : list Endpoints.ChatMessage :=
  [{| Endpoints.msg_role := "user"; Endpoints.msg_content := "stop" |}].


(** A file system with one readable file. *)
Definition one_file : ReadFileTool.OS :=
  {| ReadFileTool.os_path_exists := λ path, bool_decide (path = "notes.md");
     ReadFileTool.os_path_isfile := λ path, bool_decide (path = "notes.md");
     ReadFileTool.open := λ path, ReadFileTool.Return 3%nat;
     ReadFileTool.read := λ f, ReadFileTool.Return "remember the milk";
     ReadFileTool.close := λ f, ReadFileTool.Return tt |}.

End Scenario.

(** ** The other truncation strategies of context_manager.py *)

Module PySlice.

(** [l[:n]] for an integer [n]: a negative bound counts from the end. *)
Definition slice_to {A} (n : Z) (l : list A) : list A :=
  if 0 <=? n then take (Z.to_nat n) l
  else take (length l - Z.to_nat (- n))%nat l.

(** [l[n:]] for an integer [n]: a negative bound counts from the end, and
    [l[-0:]] is the whole list. *)
Definition slice_from {A} (n : Z) (l : list A) : list A :=
  if 0 <=? n then drop (Z.to_nat n) l
  else drop (length l - Z.to_nat (- n))%nat l.

End PySlice.

Module Strategies.

Import ContextManager.

(** The summary message of [truncate_conversation]. *)
Definition truncation_summary (removed_count : Z) : Message :=
  {| role := "system";
     content := Some ("[Context truncated: " +:+ Py.str_of_int removed_count
                      +:+ " intermediate messages removed to manage context window]");
     tool_calls := [] |}.

(** [truncate_conversation]; [None] is the [IndexError] of
    [conversation[0]] on an empty list. *)
Definition truncate_conversation (self : ContextWindowManager)
    (conversation : Conversation) (keep_first_n keep_last_n : Z)
    : option Conversation :=
  if Py.len conversation <=? keep_first_n + keep_last_n then Some conversation
  else
    let current_tokens := count_tokens self conversation in
    if current_tokens <=? available_tokens self then Some conversation
    else
      let first_messages := PySlice.slice_to keep_first_n conversation in
      let last_messages := PySlice.slice_from (- keep_last_n) conversation in
      let removed_count := Py.len conversation - keep_first_n - keep_last_n in
      let summary_message := truncation_summary removed_count in
      let truncated := first_messages ++ [summary_message] ++ last_messages in
      if available_tokens self <? count_tokens self truncated then
        match conversation with
        | c0 :: _ =>
            Some ([c0; summary_message] ++ PySlice.slice_from (-5) conversation)
        | [] => None
        end
      else Some truncated.

(** The summary message of [sliding_window_truncate]. *)
Definition window_summary (removed_count window_size : Z) : Message :=
  {| role := "system";
     content := Some ("[Sliding window: " +:+ Py.str_of_int removed_count
                      +:+ " older messages removed. Keeping initial task and last "
                      +:+ Py.str_of_int window_size +:+ " messages]");
     tool_calls := [] |}.

(** [sliding_window_truncate]; [None] is the [IndexError] of
    [conversation[0]] on an empty list. *)
Definition sliding_window_truncate (conversation : Conversation) (window_size : Z)
    : option Conversation :=
  if Py.len conversation <=? window_size then Some conversation
  else
    match conversation with
    | first_message :: _ =>
        let recent_messages := PySlice.slice_from (- window_size) conversation in
        let removed_count := Py.len conversation - window_size - 1 in
        let summary_message := window_summary removed_count window_size in
        Some ([first_message; summary_message] ++ recent_messages)
    | [] => None
    end.

End Strategies.

(** ** The other memory tools: get_size_tool.py, utils.py, create_file_tool.py *)

Module PosixPath.

Definition is_sep (c : ascii) : bool := Ascii.eqb c "/".

(** [s.startswith("/")] and [s.endswith("/")]. *)
Definition startswith_sep (s : string) : bool :=
  match s with
  | String c _ => is_sep c
  | EmptyString => false
  end.

Definition endswith_sep (s : string) : bool := startswith_sep (String.rev s).

(** [os.path.join(a, b)]. *)
Definition join (a b : string) : string :=
  if startswith_sep b then b
  else if negb (Py.str_truthy a) || endswith_sep a then a +:+ b
  else a +:+ "/" +:+ b.

Fixpoint lstrip_sep (s : string) : string :=
  match s with
  | EmptyString => EmptyString
  | String c rest => if is_sep c then lstrip_sep rest else s
  end.

(** [s.rstrip("/")]. *)
Definition rstrip_sep (s : string) : string :=
  String.rev (lstrip_sep (String.rev s)).

(** On the reversed path: what is left from the last separator on. *)
Fixpoint from_first_sep (s : string) : string :=
  match s with
  | EmptyString => EmptyString
  | String c rest => if is_sep c then s else from_first_sep rest
  end.

(** [os.path.dirname(p)]: the path up to its last separator, without the
    trailing separators unless it consists of separators only. *)
Definition dirname (p : string) : string :=
  let head := String.rev (from_first_sep (String.rev p)) in
  if Py.str_truthy head && Py.str_truthy (lstrip_sep head) then rstrip_sep head
  else head.

(** [s[:n]]. *)
Fixpoint str_take (n : nat) (s : string) : string :=
  match n, s with
  | S n', String c rest => String c (str_take n' rest)
  | _, _ => EmptyString
  end.

End PosixPath.

Module MemOS.

(** The exceptions the tools tell apart; [FileNotFoundError] is a subclass
    of [OSError], [Exception] stands for every other one. *)
Inductive PyException :=
| OSError (msg : string)
| FileNotFoundError (msg : string)
| Exception (msg : string).

Definition is_OSError (e : PyException) : bool :=
  match e with
  | OSError _ | FileNotFoundError _ => true
  | Exception _ => false
  end.

(** [str(e)]. *)
Definition str (e : PyException) : string :=
  match e with OSError msg | FileNotFoundError msg | Exception msg => msg end.

Inductive Result (A : Type) :=
| Ok (a : A)
| Err (e : PyException).
Arguments Ok {A} a.
Arguments Err {A} e.

(** What the file system answers at one moment: [os.path.exists],
    [os.path.isdir], [os.path.isfile], [os.path.getsize], [os.getcwd],
    [os.path.abspath], and the triples [(dirpath, dirnames, filenames)] that
    [os.walk] yields. *)
Record View := mkView {
  path_exists : string → bool;
  isdir : string → bool;
  isfile : string → bool;
  getsize : string → Result Z;
  getcwd : string;
  abspath : string → string;
  walk : string → list (string * list string * list string)
}.

End MemOS.

Module GetSizeTool.

Import MemOS.

(** The body of [for filename in filenames]: an [OSError] of [getsize] is
    passed over, any other exception ends the call. *)
Definition add_file (v : View) (dirpath : string) (total_size : Result Z)
    (filename : string) : Result Z :=
  match total_size with
  | Err e => Err e
  | Ok total_size =>
      match getsize v (PosixPath.join dirpath filename) with
      | Ok n => Ok (total_size + n)
      | Err e => if is_OSError e then Ok total_size else Err e
      end
  end.

(** The body of [for dirpath, dirnames, filenames in os.walk(...)]. *)
Definition add_dir (v : View) (total_size : Result Z)
    (entry : string * list string * list string) : Result Z :=
  let '(dirpath, dirnames, filenames) := entry in
  fold_left (add_file v dirpath) filenames total_size.

Definition walk_size (v : View) (top : string) : Result Z :=
  fold_left (add_dir v) (walk v top) (Ok 0).

Definition __call__ (v : View) (file_or_dir_path : string) : Result Z :=
  if negb (Py.str_truthy file_or_dir_path) || bool_decide (file_or_dir_path = "") then
    walk_size v (getcwd v)
  else if isfile v file_or_dir_path then getsize v file_or_dir_path
  else if isdir v file_or_dir_path then walk_size v file_or_dir_path
  else Err (FileNotFoundError ("Path not found: " +:+ file_or_dir_path)).

End GetSizeTool.

Module Utils.

Import MemOS.

Section WithLimits.

(** The constants of [mem_tools/settings.py], which is not among the
    sources. *)
Variables FILE_SIZE_LIMIT DIR_SIZE_LIMIT MEMORY_SIZE_LIMIT : Z.

Definition check_file_size_limit (v : View) (file_path : string) : Result bool :=
  match getsize v file_path with
  | Ok n => Ok (n <=? FILE_SIZE_LIMIT)
  | Err e => Err e
  end.

Definition check_dir_size_limit (v : View) (dir_path : string) : Result bool :=
  match getsize v dir_path with
  | Ok n => Ok (n <=? DIR_SIZE_LIMIT)
  | Err e => Err e
  end.

Definition check_memory_size_limit (v : View) : Result bool :=
  let current_working_dir := getcwd v in
  match getsize v current_working_dir with
  | Ok n => Ok (n <=? MEMORY_SIZE_LIMIT)
  | Err e => Err e
  end.

(** [a and b] on two checks: [b] is evaluated only when [a] is true. *)
Definition and_then (a b : Result bool) : Result bool :=
  match a with
  | Ok true => b
  | Ok false => Ok false
  | Err e => Err e
  end.

Definition check_size_limits (v : View) (file_or_dir_path : string) : Result bool :=
  if bool_decide (file_or_dir_path = "") then check_memory_size_limit v
  else if isdir v file_or_dir_path then
    and_then (check_dir_size_limit v file_or_dir_path) (check_memory_size_limit v)
  else if isfile v file_or_dir_path then
    let parent_dir := PosixPath.dirname file_or_dir_path in
    if negb (bool_decide (parent_dir = "")) then
      and_then (and_then (check_file_size_limit v file_or_dir_path)
                         (check_dir_size_limit v parent_dir))
               (check_memory_size_limit v)
    else
      and_then (check_file_size_limit v file_or_dir_path) (check_memory_size_limit v)
  else Ok false.

End WithLimits.

End Utils.

Module CreateFileTool.

Import MemOS.

(** What the tool asks the file system to change: [os.makedirs(path,
    exist_ok=True)], writing a file ([open(path, "w")], [write], close) and
    [os.remove(path)]. *)
Inductive Mutation :=
| Makedirs (path : string)
| Write (path : string) (content : string)
| Remove (path : string).

(** The file system as the tool meets it: what it answers after the
    requests made so far, and whether a request made then raises. *)
Record World := mkWorld {
  view : list Mutation → View;
  failure : list Mutation → Mutation → option PyException
}.

(** The state of a call is the list of requests made so far, failed ones
    included. *)
Abbreviation History := (list Mutation).

(** The history an outcome ends with. *)
Definition history_of {A} (o : Outcome History A) : History :=
  match o with Returned _ h => h | Raised _ h => h end.

(** [try: c except Exception as e: handler(str(e))]. *)
Definition catch {A} (c : M History A) (handler : string → M History A)
    : M History A :=
  λ h, match c h with
       | Returned a h' => Returned a h'
       | Raised e h' => handler e h'
       end.

Section WithWorld.

Variable w : World.
Variables FILE_SIZE_LIMIT DIR_SIZE_LIMIT MEMORY_SIZE_LIMIT : Z.

(** [uuid.uuid4().hex]. *)
Variable uuid_hex : string.

Definition perform (mu : Mutation) : M History unit :=
  λ h, match failure w h mu with
       | None => Returned tt (h ++ [mu])
       | Some e => Raised (str e) (h ++ [mu])
       end.

Definition observe {A} (f : View → A) : M History A :=
  λ h, Returned (f (view w h)) h.

Definition observe_result {A} (f : View → Result A) : M History A :=
  λ h, match f (view w h) with
       | Ok a => Returned a h
       | Err e => Raised (str e) h
       end.

(** The [try] block up to the assignment of [temp_file_path]. *)
Definition prepare (file_path : string) : M History string :=
  let parent_dir := PosixPath.dirname file_path in
  missing ← observe (λ v, negb (path_exists v parent_dir));
  (if Py.str_truthy parent_dir && missing then perform (Makedirs parent_dir)
   else mret tt);;
  absolute ← observe (λ v, abspath v file_path);
  let target_dir :=
    if Py.str_truthy (PosixPath.dirname absolute) then PosixPath.dirname absolute
    else "." in
  mret (PosixPath.join target_dir
          ("temp_" +:+ PosixPath.str_take 8 uuid_hex +:+ ".txt")).

(** The rest of the [try] block. *)
Definition create (file_path content temp_file_path : string) : M History bool :=
  perform (Write temp_file_path content);;
  within ← observe_result
             (λ v, Utils.check_size_limits FILE_SIZE_LIMIT DIR_SIZE_LIMIT
                     MEMORY_SIZE_LIMIT v temp_file_path);
  if within : bool then
    perform (Write file_path content);;
    perform (Remove temp_file_path);;
    mret true
  else
    perform (Remove temp_file_path);;
    Eff.raise ("File " +:+ file_path +:+ " is too large to create").

(** The [except Exception as e] clause; [temp_file_path] is [None] until
    it has been assigned. *)
Definition handler (file_path : string) (temp_file_path : option string)
    (e : string) : M History bool :=
  (match temp_file_path with
   | Some temp =>
       present ← observe (λ v, path_exists v temp);
       if Py.str_truthy temp && present then
         catch (perform (Remove temp);; mret true)
           (λ e', Eff.raise ("Error removing temp file " +:+ temp +:+ ": " +:+ e'))
       else mret true
   | None => mret true
   end);;
  Eff.raise ("Error creating file " +:+ file_path +:+ ": " +:+ e).

Definition __call__ (file_path content : string) : M History bool :=
  λ h, match prepare file_path h with
       | Raised e h' => handler file_path None e h'
       | Returned temp_file_path h' =>
           catch (create file_path content temp_file_path)
             (handler file_path (Some temp_file_path)) h'
       end.

End WithWorld.

End CreateFileTool.

(** ** What the directory walk adds up *)

Module WalkSum.

Import MemOS.




End WalkSum.

(** ** Requests served one after the other *)

Module Requests.

Import Endpoints.

(** The agent after the handler has served one continuation request,
    whether it returned or raised. *)
Definition serve (messages : list ChatMessage) (self : Agent) : Agent :=
  match create_chat_completion messages self with
  | Returned _ self' => self'
  | Raised _ self' => self'
  end.

Definition serve_all (requests : list (list ChatMessage)) (self : Agent) : Agent :=
  fold_left (λ self messages, serve messages self) requests self.

End Requests.

Module Scenario2.

Import Scenario.

(** Twenty intermediate messages of 40 tokens each. *)
Definition twenty_messages : Conversation :=
  repeat (text "assistant" "thinking about the task step by step") 20.

(** A conversation with a tool result in the middle: 120 tokens, 80 of
    them without the long second message. *)
Definition with_tool_result : Conversation :=
  text "user" "Task: hi"
  :: text "assistant" "thinking about the task step by step"
  :: text "tool" "found: 3 sources"
  :: repeat (text "assistant" "ok") 8.

(** Budget 110 with reserves 15 and 15: 80 tokens available. *)
Definition manager_80 : ContextWindowManager :=
  ContextManager.__init__ (λ _, None) byte_encoding 110 15 15 "gpt-4".

(** A parent class whose reasoning always ends in a question to the user. *)
Definition asking_select_action_phase (reasoning : string) : M Agent Tool :=
  mret ClarificationTool.


(** A request with a question, and one without any user message. *)
Definition question_request : list Endpoints.ChatMessage :=
  [{| Endpoints.msg_role := "system"; Endpoints.msg_content := "be brief" |};
   {| Endpoints.msg_role := "user"; Endpoints.msg_content := "and the second library?" |}].

Definition empty_request : list Endpoints.ChatMessage :=
  [{| Endpoints.msg_role := "assistant"; Endpoints.msg_content := "hello" |}].

(** A memory directory with two readable files and one that is not. *)
Definition memory_sizes : list (string * Z) :=
  [("/memory", 4096); ("/memory/notes", 4096);
   ("/memory/a.md", 10); ("/memory/notes/b.md", 20);
   ("/memory/notes/temp_0123abcd.txt", 5)].

Definition memory_dirs : list string := ["/memory"; "/memory/notes"].

Fixpoint size_of (sizes : list (string * Z)) (path : string) : option Z :=
  match sizes with
  | [] => None
  | (p, n) :: rest => if String.eqb p path then Some n else size_of rest path
  end.

Definition memory_view : MemOS.View :=
  {| MemOS.path_exists := λ p, bool_decide (is_Some (size_of memory_sizes p));
     MemOS.isdir := λ p, bool_decide (p ∈ memory_dirs);
     MemOS.isfile := λ p, bool_decide (is_Some (size_of memory_sizes p))
                          && negb (bool_decide (p ∈ memory_dirs));
     MemOS.getsize := λ p, match size_of memory_sizes p with
                           | Some n => MemOS.Ok n
                           | None => MemOS.Err (MemOS.OSError "Permission denied")
                           end;
     MemOS.getcwd := "/memory";
     MemOS.abspath := λ p, if PosixPath.startswith_sep p then p else "/memory/" +:+ p;
     MemOS.walk := λ top,
       if bool_decide (top = "/memory") then
         [("/memory", ["notes"], ["a.md"]);
          ("/memory/notes", [], ["b.md"; "locked.md"])]
       else [] |}.

(** A file system that always answers like [memory_view] and refuses
    nothing. *)
Definition memory_world : CreateFileTool.World :=
  {| CreateFileTool.view := λ _, memory_view;
     CreateFileTool.failure := λ _ _, None |}.

End Scenario2.

(** * Properties *)

(** ** The token count *)

Module CountFacts.

Import ContextManager.

Section WithManager.

Variable self : ContextWindowManager.

Lemma len_nonneg {A} (l : list A) : 0 ≤ Py.len l.
Proof. unfold Py.len. lia. Qed.

Lemma count_tool_calls_acc (tcs : list ToolCall) (t : Z) :
  fold_left (count_tool_call self) tcs t
  = t + fold_left (count_tool_call self) tcs 0
  ∧ 0 ≤ fold_left (count_tool_call self) tcs 0.
Proof.
  revert t. induction tcs as [|tc tcs IH]; intros t; simpl.
  - lia.
  - destruct (IH (count_tool_call self t tc)) as [E1 _].
    destruct (IH (count_tool_call self 0 tc)) as [E2 Hpos].
    rewrite E1, E2. clear IH E1 E2.
    generalize dependent (fold_left (count_tool_call self) tcs 0).
    intros X HX. unfold count_tool_call.
    destruct (function tc) as [f|]; [|lia].
    pose proof (len_nonneg
      (encoding self (default "" (fn_name f) +:+ default "" (fn_arguments f)))).
    destruct (function_truthy f); lia.
Qed.

Lemma count_message_acc (t : Z) (m : Message) :
  count_message self t m = t + message_tokens self m.
Proof.
  unfold message_tokens, count_message.
  destruct (content_truthy m), (Py.list_truthy (tool_calls m)); try lia.
  - destruct (count_tool_calls_acc (tool_calls m)
                (t + 4 + Py.len (encoding self (default "" (content m))))) as [-> _].
    destruct (count_tool_calls_acc (tool_calls m)
                (0 + 4 + Py.len (encoding self (default "" (content m))))) as [-> _].
    lia.
  - destruct (count_tool_calls_acc (tool_calls m) (t + 4)) as [-> _].
    destruct (count_tool_calls_acc (tool_calls m) (0 + 4)) as [-> _].
    lia.
Qed.

(** Every message costs at least its role overhead. *)
Lemma message_tokens_ge_4 (m : Message) : 4 ≤ message_tokens self m.
Proof.
  unfold message_tokens, count_message.
  pose proof (len_nonneg (encoding self (default "" (content m)))).
  destruct (content_truthy m), (Py.list_truthy (tool_calls m)); try lia.
  - destruct (count_tool_calls_acc (tool_calls m)
                (0 + 4 + Py.len (encoding self (default "" (content m))))) as [-> ?].
    lia.
  - destruct (count_tool_calls_acc (tool_calls m) (0 + 4)) as [-> ?]. lia.
Qed.

Lemma count_fold_acc (l : Conversation) (t : Z) :
  fold_left (count_message self) l t = t + count_tokens self l.
Proof.
  unfold count_tokens. revert t.
  induction l as [|m l IH]; intros t; simpl; [lia|].
  rewrite (IH (count_message self t m)), (IH (count_message self 0 m)).
  rewrite (count_message_acc t m), (count_message_acc 0 m). lia.
Qed.

Lemma count_tokens_nil : count_tokens self [] = 0.
Proof. reflexivity. Qed.

Lemma count_tokens_cons (m : Message) (l : Conversation) :
  count_tokens self (m :: l) = message_tokens self m + count_tokens self l.
Proof.
  unfold count_tokens at 1. simpl. rewrite count_fold_acc.
  rewrite count_message_acc. lia.
Qed.

Lemma count_tokens_app (l1 l2 : Conversation) :
  count_tokens self (l1 ++ l2) = count_tokens self l1 + count_tokens self l2.
Proof.
  induction l1 as [|m l1 IH]; simpl.
  - rewrite count_tokens_nil. lia.
  - rewrite !count_tokens_cons, IH. lia.
Qed.

Lemma count_tokens_nonneg (l : Conversation) : 0 ≤ count_tokens self l.
Proof.
  induction l as [|m l IH]; [rewrite count_tokens_nil; lia|].
  rewrite count_tokens_cons. pose proof (message_tokens_ge_4 m). lia.
Qed.

(** Dropping messages never raises the count. *)
Lemma count_tokens_sublist (l1 l2 : Conversation) :
  sublist l1 l2 → count_tokens self l1 ≤ count_tokens self l2.
Proof.
  induction 1 as [|m l1 l2 _ IH|m l1 l2 _ IH].
  - lia.
  - rewrite !count_tokens_cons. lia.
  - rewrite count_tokens_cons. pose proof (message_tokens_ge_4 m). lia.
Qed.

End WithManager.

End CountFacts.

(** ** The truncation *)

Module TruncateFacts.

Import ContextManager Selection CountFacts.

Lemma filter_sublist {A} (f : A → bool) (l : list A) :
  sublist (List.filter f l) l.
Proof.
  induction l as [|x l IH]; simpl; [constructor|].
  destruct (f x); by constructor.
Qed.

Lemma slice_last_length {A} (n : nat) (l : list A) :
  (length (Py.slice_last n l) ≤ n)%nat.
Proof. unfold Py.slice_last. rewrite length_drop. lia. Qed.

Lemma slice_last_suffix {A} (n : nat) (l : list A) :
  Py.slice_last n l `suffix_of` l.
Proof. apply suffix_drop. Qed.

(** The branches of the loop body below the recency threshold. *)
Lemma categorize_below_spec (p : bool) (msg : Message) (imp rec : list Message) :
  categorize_below p msg (imp, rec)
  = (imp ++ (if is_important p msg then [msg] else []), rec).
Proof.
  unfold categorize_below, is_important.
  destruct (p && bool_decide (role msg = "tool")); cbn [orb]; [done|].
  destruct (Py.list_truthy (tool_calls msg)); cbn [andb];
    [|by rewrite app_nil_r].
  destruct (any_important (tool_names msg)); [done|by rewrite app_nil_r].
Qed.

(** The loop computes the selection: from index [idx] on, the messages
    below the threshold are filtered into the important ones and the others
    are appended to the recent ones. *)
Lemma categorize_spec (p : bool) (t : Z) (msgs : list Message) :
  ∀ (idx : Z) (imp rec : list Message),
    categorize p t idx msgs (imp, rec)
    = (imp ++ List.filter (is_important p) (take (Z.to_nat (t - idx)) msgs),
       rec ++ drop (Z.to_nat (t - idx)) msgs).
Proof.
  induction msgs as [|msg rest IH]; intros idx imp rec.
  - simpl. by rewrite take_nil, drop_nil, !app_nil_r.
  - cbn [categorize]. unfold categorize_step.
    destruct (Z.leb_spec t idx) as [Hle|Hlt].
    + rewrite IH.
      replace (Z.to_nat (t - (idx + 1))) with 0%nat by lia.
      replace (Z.to_nat (t - idx)) with 0%nat by lia.
      simpl. by rewrite app_nil_r, <- app_assoc.
    + replace (Z.to_nat (t - idx)) with (S (Z.to_nat (t - (idx + 1)))) by lia.
      cbn [take drop firstn skipn List.filter].
      change (if p && bool_decide (role msg = "tool") then (imp ++ [msg], rec)
              else if Py.list_truthy (tool_calls msg) then
                if any_important (tool_names msg) then (imp ++ [msg], rec)
                else (imp, rec)
              else (imp, rec))
        with (categorize_below p msg (imp, rec)).
      rewrite categorize_below_spec, IH.
      destruct (is_important p msg); by rewrite <- ?app_assoc, ?app_nil_r.
Qed.

Section WithManager.

Variable self : ContextWindowManager.

Lemma categorize_selection (p : bool) (C : Conversation) :
  categorize p (Z.max 1 (Py.len C - 8)) 1 (drop 1 C) ([], [])
  = (important p C, recent C).
Proof.
  rewrite categorize_spec. unfold important, middle, recent, recent_threshold.
  replace (Z.to_nat (Z.max 1 (Py.len C - 8) - 1))
    with (Z.to_nat (Z.max 1 (Py.len C - 8)) - 1)%nat by lia.
  simpl. f_equal. rewrite drop_drop. f_equal. lia.
Qed.

(** [smart_truncate] in terms of the selection. *)
Lemma smart_truncate_unfold (C : Conversation) (p : bool) :
  smart_truncate self C p
  = if count_tokens self C <=? available_tokens self then C
    else if available_tokens self <? count_tokens self (first_stage p C) then
      initial_task_of C ++ [summary (Py.len (important p C))]
      ++ Py.slice_last 6 (recent C)
    else first_stage p C.
Proof.
  unfold smart_truncate. rewrite categorize_selection. reflexivity.
Qed.

(** The first test of [smart_truncate]. *)
Lemma smart_truncate_within_budget (C : Conversation) (p : bool) :
  count_tokens self C ≤ available_tokens self →
  smart_truncate self C p = C.
Proof.
  intros H. unfold smart_truncate.
  by destruct (Z.leb_spec (count_tokens self C) (available_tokens self)); [|lia].
Qed.

Lemma first_stage_sublist (p : bool) (C : Conversation) :
  sublist (first_stage p C) C.
Proof.
  unfold first_stage, important, middle, recent.
  destruct C as [|c0 rest]; [by rewrite !drop_nil|].
  assert (∃ k, recent_threshold (c0 :: rest) = S k) as [k Hk].
  { unfold recent_threshold. exists (Z.to_nat (Z.max 1 (Py.len (c0 :: rest) - 8)) - 1)%nat.
    lia. }
  rewrite Hk. simpl. rewrite Nat.sub_0_r. constructor.
  rewrite <- (take_drop k rest) at 3.
  apply sublist_app; [apply filter_sublist | reflexivity].
Qed.

Lemma recent_suffix (C : Conversation) : recent C `suffix_of` C.
Proof. apply suffix_drop. Qed.

(** The retained originals of the fallback are in the conversation, in
    order. *)
Lemma fallback_sublist (C : Conversation) :
  sublist (initial_task_of C ++ Py.slice_last 6 (recent C)) C.
Proof.
  unfold recent, Py.slice_last. rewrite drop_drop.
  destruct C as [|c0 rest]; [by rewrite drop_nil|].
  assert (∃ k, recent_threshold (c0 :: rest) = S k) as [k Hk].
  { unfold recent_threshold. exists (Z.to_nat (Z.max 1 (Py.len (c0 :: rest) - 8)) - 1)%nat.
    lia. }
  rewrite Hk. cbn [Nat.add drop skipn initial_task_of app]. constructor.
  apply sublist_drop.
Qed.

Lemma fallback_tail_suffix (C : Conversation) :
  Py.slice_last 6 (recent C) `suffix_of` C.
Proof.
  etrans; [apply slice_last_suffix | apply recent_suffix].
Qed.

End WithManager.

End TruncateFacts.

(** ** Claims on the context manager *)

Module ContextManagerClaims.

Import ContextManager Selection CountFacts TruncateFacts Scenario.

(** C4.  A conversation whose token count does not exceed the available
    tokens is returned unchanged by [smart_truncate]. *)
Theorem smart_truncate_fast_path
    (self : ContextWindowManager) (C : Conversation) (p : bool) :
  count_tokens self C ≤ available_tokens self →
  smart_truncate self C p = C.
Proof. apply smart_truncate_within_budget. Qed.

Lemma smart_truncate_fast_path_witness :
  count_tokens manager_600 ten_messages ≤ available_tokens manager_600
  ∧ smart_truncate manager_600 ten_messages true = ten_messages.
Proof.
  assert (H : count_tokens manager_600 ten_messages ≤ available_tokens manager_600)
    by (vm_compute; discriminate).
  split; [exact H | exact (smart_truncate_fast_path manager_600 ten_messages true H)].
Defined.

(** C7.  [count_tokens] is a function of the conversation; appending a
    message, empty or not, strictly increases the count, and the count is
    never negative. *)
Theorem count_tokens_append_increases
    (self : ContextWindowManager) (C : Conversation) (m : Message) :
  count_tokens self C < count_tokens self (C ++ [m])
  ∧ 0 ≤ count_tokens self C.
Proof.
  split; [|apply count_tokens_nonneg].
  rewrite count_tokens_app, count_tokens_cons, count_tokens_nil.
  pose proof (message_tokens_ge_4 self m). lia.
Qed.

(** The three ways [smart_truncate] returns. *)
Lemma smart_truncate_cases
    (self : ContextWindowManager) (C : Conversation) (p : bool) :
  (count_tokens self C ≤ available_tokens self
   ∧ smart_truncate self C p = C)
  ∨ (available_tokens self < count_tokens self C
     ∧ count_tokens self (first_stage p C) ≤ available_tokens self
     ∧ smart_truncate self C p = first_stage p C)
  ∨ (available_tokens self < count_tokens self C
     ∧ available_tokens self < count_tokens self (first_stage p C)
     ∧ smart_truncate self C p
       = initial_task_of C ++ [summary (Py.len (important p C))]
         ++ Py.slice_last 6 (recent C)).
Proof.
  rewrite smart_truncate_unfold.
  destruct (Z.leb_spec (count_tokens self C) (available_tokens self)); [by left|].
  destruct (Z.ltb_spec (available_tokens self) (count_tokens self (first_stage p C)));
    right; [right|left]; done.
Qed.

(** C5, as the code has it.  Either the result fits the available tokens,
    and then it costs no more than the input; or the result is the minimal
    guarantee, the initial message, one marker and at most six of the last
    messages, and then it costs no more than the input and the marker
    together. *)
Theorem smart_truncate_fits_or_minimal
    (self : ContextWindowManager) (C : Conversation) (p : bool) :
  (count_tokens self (smart_truncate self C p) ≤ available_tokens self
   ∧ count_tokens self (smart_truncate self C p) ≤ count_tokens self C)
  ∨ (∃ (n : Z) (tail : list Message),
       smart_truncate self C p = initial_task_of C ++ [summary n] ++ tail
       ∧ (length tail ≤ 6)%nat
       ∧ tail `suffix_of` C
       ∧ count_tokens self (smart_truncate self C p)
         ≤ count_tokens self C + count_tokens self [summary n]).
Proof.
  destruct (smart_truncate_cases self C p)
    as [[Hfit ->]|[(Hover & Hfit & ->)|(Hover & Hbig & ->)]].
  - left. split; [done|lia].
  - left. split; [done|]. apply count_tokens_sublist, first_stage_sublist.
  - right. exists (Py.len (important p C)), (Py.slice_last 6 (recent C)).
    split; [done|]. split; [apply slice_last_length|].
    split; [apply fallback_tail_suffix|].
    pose proof (count_tokens_sublist self _ _ (fallback_sublist C)) as Hsub.
    rewrite !count_tokens_app in *. lia.
Qed.

(** C5 fails as stated: on a task and its answer, 21 tokens against 5
    available, the result is the initial message, the marker and the answer,
    which costs more than the input. *)
Lemma smart_truncate_can_grow :
  count_tokens manager_5 two_messages
  < count_tokens manager_5 (smart_truncate manager_5 two_messages true).
Proof. vm_compute. reflexivity. Qed.

(** C6, as the code has it.  When the result of [smart_truncate] fits the
    available tokens, truncating it again changes nothing. *)
Theorem smart_truncate_idempotent_when_fits
    (self : ContextWindowManager) (C : Conversation) (p p' : bool) :
  count_tokens self (smart_truncate self C p) ≤ available_tokens self →
  smart_truncate self (smart_truncate self C p) p' = smart_truncate self C p.
Proof. apply smart_truncate_within_budget. Qed.

Lemma smart_truncate_idempotent_when_fits_witness :
  count_tokens manager_70 (smart_truncate manager_70 ten_messages true)
    ≤ available_tokens manager_70
  ∧ smart_truncate manager_70 (smart_truncate manager_70 ten_messages true) true
    = smart_truncate manager_70 ten_messages true.
Proof.
  assert (H : count_tokens manager_70 (smart_truncate manager_70 ten_messages true)
              ≤ available_tokens manager_70) by (vm_compute; discriminate).
  split; [exact H|].
  exact (smart_truncate_idempotent_when_fits manager_70 ten_messages true true H).
Defined.

(** C6 fails as stated: the minimal guarantee of the two-message
    conversation is still over the 5 available tokens, and truncating it
    again inserts a second marker. *)
Lemma smart_truncate_not_idempotent :
  smart_truncate manager_5 (smart_truncate manager_5 two_messages true) true
  ≠ smart_truncate manager_5 two_messages true.
Proof. vm_compute. discriminate. Qed.

(** C9.  The result of [smart_truncate] is a subsequence of the
    conversation, or a subsequence of it with one marker inserted; and the
    result of truncating a non-empty conversation that is over the
    available tokens starts with the first message of the conversation. *)
Theorem smart_truncate_subsequence
    (self : ContextWindowManager) (C : Conversation) (p : bool) :
  (sublist (smart_truncate self C p) C
   ∨ ∃ (n : Z) (pre suf : list Message),
       smart_truncate self C p = pre ++ summary n :: suf
       ∧ sublist (pre ++ suf) C)
  ∧ (C ≠ [] → available_tokens self < count_tokens self C →
     head (smart_truncate self C p) = head C).
Proof.
  destruct (smart_truncate_cases self C p)
    as [[Hfit ->]|[(Hover & Hfit & ->)|(Hover & Hbig & ->)]].
  - split; [by left|]. done.
  - split; [left; apply first_stage_sublist|].
    intros HC _. by destruct C.
  - split.
    + right. exists (Py.len (important p C)), (initial_task_of C),
        (Py.slice_last 6 (recent C)).
      split; [done|apply fallback_sublist].
    + intros HC _. by destruct C.
Qed.

Lemma smart_truncate_subsequence_witness :
  two_messages ≠ []
  ∧ available_tokens manager_5 < count_tokens manager_5 two_messages
  ∧ head (smart_truncate manager_5 two_messages true) = head two_messages.
Proof.
  assert (H1 : two_messages ≠ []) by discriminate.
  assert (H2 : available_tokens manager_5 < count_tokens manager_5 two_messages)
    by (vm_compute; reflexivity).
  split; [exact H1|]. split; [exact H2|].
  exact (proj2 (smart_truncate_subsequence manager_5 two_messages true) H1 H2).
Defined.

(** *** Whatever the tokenizer

    The runs above do not depend on the tokenizer of the scenario: the same
    happens for every manager and every conversation of the same form. *)

Lemma two_messages_fallback
    (self : ContextWindowManager) (m1 m2 : Message) (p : bool) :
  available_tokens self < count_tokens self [m1; m2] →
  smart_truncate self [m1; m2] p = [m1; summary 0; m2].
Proof.
  intros Hover. rewrite smart_truncate_unfold.
  destruct (Z.leb_spec (count_tokens self [m1; m2]) (available_tokens self)); [lia|].
  change (first_stage p [m1; m2]) with [m1; m2].
  by destruct (Z.ltb_spec (available_tokens self) (count_tokens self [m1; m2])); [|lia].
Qed.

Lemma two_messages_grow
    (self : ContextWindowManager) (m1 m2 : Message) (p : bool) :
  available_tokens self < count_tokens self [m1; m2] →
  count_tokens self [m1; m2] < count_tokens self (smart_truncate self [m1; m2] p).
Proof.
  intros Hover. rewrite two_messages_fallback by done.
  rewrite !count_tokens_cons.
  pose proof (message_tokens_ge_4 self (summary 0)). lia.
Qed.

Lemma two_messages_not_idempotent
    (self : ContextWindowManager) (m1 m2 : Message) (p p' : bool) :
  available_tokens self < count_tokens self [m1; m2] →
  smart_truncate self (smart_truncate self [m1; m2] p) p'
  ≠ smart_truncate self [m1; m2] p.
Proof.
  intros Hover. rewrite two_messages_fallback by done.
  assert (Hover' : available_tokens self < count_tokens self [m1; summary 0; m2]).
  { rewrite !count_tokens_cons in *.
    pose proof (message_tokens_ge_4 self (summary 0)). lia. }
  rewrite smart_truncate_unfold.
  destruct (Z.leb_spec (count_tokens self [m1; summary 0; m2]) (available_tokens self));
    [lia|].
  change (first_stage p' [m1; summary 0; m2]) with [m1; summary 0; m2].
  destruct (Z.ltb_spec (available_tokens self)
              (count_tokens self [m1; summary 0; m2])); [|lia].
  discriminate.
Qed.

Lemma unimportant_middle_dropped
    (self : ContextWindowManager) (c0 m : Message) (rest : list Message) :
  length rest = 8%nat →
  is_important true m = false →
  available_tokens self < count_tokens self (c0 :: m :: rest) →
  count_tokens self (c0 :: rest) ≤ available_tokens self →
  smart_truncate self (c0 :: m :: rest) true = c0 :: rest.
Proof.
  intros Hlen Hm Hover Hfit. rewrite smart_truncate_unfold.
  destruct (Z.leb_spec (count_tokens self (c0 :: m :: rest)) (available_tokens self));
    [lia|].
  assert (E : first_stage true (c0 :: m :: rest) = c0 :: rest).
  { unfold first_stage, important, middle, recent, recent_threshold, Py.len.
    cbn [length]. rewrite Hlen.
    change (Z.to_nat (Z.max 1 (Z.of_nat 10 - 8))) with 2%nat.
    cbn [take drop firstn skipn Nat.sub List.filter initial_task_of].
    by rewrite Hm. }
  rewrite E.
  by destruct (Z.ltb_spec (available_tokens self) (count_tokens self (c0 :: rest)));
    [lia|].
Qed.

Lemma is_marker_summary (n : Z) : is_marker (summary n) = true.
Proof.
  unfold is_marker, summary. cbn [role content].
  rewrite bool_decide_eq_true_2 by done. simpl.
  by destruct (Py.str_of_int n +:+ " intermediate messages removed]").
Qed.

(** C2, as the code has it.  On a conversation over the available tokens,
    the first stage keeps the initial message, the important middle messages
    and the recent messages and inserts nothing; when the first stage fits
    it is the result, a subsequence of the conversation.  Only when it does
    not fit is the result the initial message, one marker and the last six
    of the recent messages. *)
Theorem smart_truncate_marker_only_in_fallback
    (self : ContextWindowManager) (C : Conversation) (p : bool) :
  available_tokens self < count_tokens self C →
  (count_tokens self (first_stage p C) ≤ available_tokens self
   ∧ smart_truncate self C p = first_stage p C
   ∧ sublist (smart_truncate self C p) C)
  ∨ (available_tokens self < count_tokens self (first_stage p C)
     ∧ ∃ n : Z,
         smart_truncate self C p
         = initial_task_of C ++ [summary n] ++ Py.slice_last 6 (recent C)
         ∧ is_marker (summary n) = true).
Proof.
  intros Hover.
  destruct (smart_truncate_cases self C p)
    as [[Hfit _]|[(_ & Hfit & E)|(_ & Hbig & E)]]; [lia| |].
  - left. rewrite E. split; [done|]. split; [done|apply first_stage_sublist].
  - right. split; [done|]. exists (Py.len (important p C)).
    split; [done|apply is_marker_summary].
Qed.

Lemma smart_truncate_marker_only_in_fallback_witness :
  available_tokens manager_5 < count_tokens manager_5 two_messages
  ∧ ((count_tokens manager_5 (first_stage true two_messages)
        ≤ available_tokens manager_5
      ∧ smart_truncate manager_5 two_messages true = first_stage true two_messages
      ∧ sublist (smart_truncate manager_5 two_messages true) two_messages)
     ∨ (available_tokens manager_5
          < count_tokens manager_5 (first_stage true two_messages)
        ∧ ∃ n : Z,
            smart_truncate manager_5 two_messages true
            = initial_task_of two_messages ++ [summary n]
              ++ Py.slice_last 6 (recent two_messages)
            ∧ is_marker (summary n) = true)).
Proof.
  assert (H : available_tokens manager_5 < count_tokens manager_5 two_messages)
    by (vm_compute; reflexivity).
  split; [exact H|].
  exact (smart_truncate_marker_only_in_fallback manager_5 two_messages true H).
Defined.

(** C2 fails as stated: the ten-message conversation costs 100 tokens
    against 70 available; the result has nine messages, the long
    intermediate one is gone, and no marker stands for it. *)
Lemma smart_truncate_drops_silently :
  available_tokens manager_70 < count_tokens manager_70 ten_messages
  ∧ length (smart_truncate manager_70 ten_messages true) = 9%nat
  ∧ length ten_messages = 10%nat
  ∧ existsb is_marker (smart_truncate manager_70 ten_messages true) = false.
Proof. vm_compute. done. Qed.

End ContextManagerClaims.

(** ** Claims on the memory tools *)

Module ReadFileClaims.

Import ReadFileTool.

Lemma error_prefix_not_exist (path : string) :
  String.prefix "Error:" ("Error: File " +:+ path +:+ " does not exist") = true.
Proof. reflexivity. Qed.

Lemma error_prefix_not_file (path : string) :
  String.prefix "Error:" ("Error: " +:+ path +:+ " is not a file") = true.
Proof. simpl. by destruct path. Qed.

Lemma error_prefix_denied (path : string) :
  String.prefix "Error:" ("Error: Permission denied accessing " +:+ path) = true.
Proof. reflexivity. Qed.

Lemma error_prefix_other (e : Exception) :
  String.prefix "Error:" ("Error: " +:+ str e) = true.
Proof. reflexivity. Qed.

(** An exception that reaches the handlers becomes an error string. *)
Lemma handled_exception (os : OS) (file_path : string) (e : Exception) :
  try_block os file_path = Raise e →
  ∃ s, __call__ os file_path = Return s ∧ String.prefix "Error:" s = true.
Proof.
  intros E. unfold __call__. rewrite E. destruct e as [msg|msg].
  - eexists. split; [done|apply error_prefix_denied].
  - eexists. split; [done|apply (error_prefix_other (OtherException msg))].
Qed.

(** C10.  [ReadFileTool.__call__] returns a string whatever the operating
    system answers: the text that was read when the path exists, is a file
    and is opened, read and closed without an exception; in every other case
    a string that begins with ["Error:"]. *)
Theorem read_file_total (os : OS) (file_path : string) :
  ∃ s : string,
    __call__ os file_path = Return s
    ∧ ((∃ f : nat,
          os_path_exists os file_path = true
          ∧ os_path_isfile os file_path = true
          ∧ open os file_path = Return f
          ∧ read os f = Return s
          ∧ close os f = Return tt)
       ∨ ((os_path_exists os file_path = false
           ∨ os_path_isfile os file_path = false
           ∨ (∃ e, open os file_path = Raise e)
           ∨ (∃ f, open os file_path = Return f
                   ∧ ((∃ e, read os f = Raise e) ∨ (∃ e, close os f = Raise e))))
          ∧ String.prefix "Error:" s = true)).
Proof.
  destruct (os_path_exists os file_path) eqn:Hex.
  2: { exists ("Error: File " +:+ file_path +:+ " does not exist").
       split; [unfold __call__, try_block; by rewrite Hex|].
       right. split; [by left|apply error_prefix_not_exist]. }
  destruct (os_path_isfile os file_path) eqn:Hfile.
  2: { exists ("Error: " +:+ file_path +:+ " is not a file").
       split; [unfold __call__, try_block; by rewrite Hex, Hfile|].
       right. split; [by right; left|apply error_prefix_not_file]. }
  assert (Htry : try_block os file_path = with_open os file_path (read os)).
  { unfold try_block. by rewrite Hex, Hfile. }
  unfold with_open in Htry.
  destruct (open os file_path) as [f|e] eqn:Hopen.
  2: { destruct (handled_exception os file_path e Htry) as (s & E & Hs).
       exists s. split; [done|]. right. split; [|done]. right; right; left. eauto. }
  destruct (read os f) as [text|e] eqn:Hread.
  - destruct (close os f) as [[]|e] eqn:Hclose.
    + exists text. split; [unfold __call__; by rewrite Htry|].
      left. exists f. by rewrite Hread, Hclose.
    + destruct (handled_exception os file_path e Htry) as (s & E & Hs).
      exists s. split; [done|]. right. split; [|done].
      right; right; right. exists f. split; [done|]. right. rewrite Hclose. eauto.
  - assert (∃ e', try_block os file_path = Raise e') as [e' He'].
    { rewrite Htry. destruct (close os f); eauto. }
    destruct (handled_exception os file_path e' He') as (s & E & Hs).
    exists s. split; [done|]. right. split; [|done].
    right; right; right. exists f. split; [done|]. left. rewrite Hread. eauto.
Qed.

End ReadFileClaims.

(** ** Claims on the infinite agent *)

Module AgentClaims.

Import Agent InfiniteAgent Endpoints Scenario.

Lemma bind_returned {S A B} (c : M S A) (k : A → M S B) (s s' : S) (b : B) :
  (c ≫= k) s = Returned b s' →
  ∃ a s1, c s = Returned a s1 ∧ k a s1 = Returned b s'.
Proof.
  unfold mbind, M_bind, bind. destruct (c s) as [a s1|e s1]; [eauto|discriminate].
Qed.

(** [pause] leaves the agent waiting with the event cleared, and touches
    nothing else. *)
Lemma pause_returned (self : Agent) :
  pause self
  = Returned tt (set_clarification_received false
                   (set_state WAITING_FOR_CLARIFICATION self)).
Proof. reflexivity. Qed.

Section WithParent.

Variable _reasoning_phase : M Agent string.
Variable super_select_action_phase : string → M Agent Tool.
Variable _action_phase : Tool → M Agent unit.


(** The end of a pass that ran a final answer. *)
Lemma loop_body_final_answer (self self' : Agent) (tool : Tool) (ctl : LoopCtl) :
  loop_body _reasoning_phase super_select_action_phase _action_phase self
  = Returned (tool, ctl) self' →
  isinstance_FinalAnswerTool tool = true →
  user_requested_stop self' = false →
  state (_context self') = WAITING_FOR_CLARIFICATION
  ∧ clarification_received (_context self') = false
  ∧ ctl = Wait.
Proof.
  intros Hbody Htool Hstop. unfold InfiniteAgent.loop_body in Hbody.
  apply bind_returned in Hbody as (? & s1 & _ & Hbody).
  apply bind_returned in Hbody as (reasoning & s2 & _ & Hbody).
  apply bind_returned in Hbody as (? & s3 & _ & Hbody).
  apply bind_returned in Hbody as (action_tool & s4 & _ & Hbody).
  apply bind_returned in Hbody as (? & s5 & _ & Hbody).
  destruct (is_ClarificationTool action_tool) eqn:Hclar.
  - apply bind_returned in Hbody as (? & s6 & Hpause & Hret).
    rewrite (pause_returned s5) in Hpause.
    unfold mret, M_ret, ret in Hret. by simplify_eq.
  - apply bind_returned in Hbody as (s5' & s6 & Hget & Hbody).
    unfold get in Hget. simplify_eq.
    destruct (isinstance_FinalAnswerTool action_tool) eqn:Hfin; cbn [andb] in Hbody.
    + destruct (user_requested_stop s6) eqn:Hs5; cbn [negb] in Hbody.
      * unfold mret, M_ret, ret in Hbody. simplify_eq. congruence.
      * apply bind_returned in Hbody as (? & s7 & Hpause & Hret).
        rewrite (pause_returned s6) in Hpause.
        unfold mret, M_ret, ret in Hret. by simplify_eq.
    + unfold mret, M_ret, ret in Hbody. simplify_eq. congruence.
Qed.

(** C3.  A pass of the loop that starts without a recorded stop, runs a
    final answer and ends without a recorded stop leaves the agent in
    [WAITING_FOR_CLARIFICATION], not [COMPLETED], with the event cleared
    and the coroutine suspended on it; and the coroutine finishes from the
    head of the loop only with the stop recorded or in [FAILED]. *)
Theorem final_answer_waits_without_stop
    (self self' : Agent) (tool : Tool) (ctl : LoopCtl) :
  user_requested_stop self = false →
  loop_body _reasoning_phase super_select_action_phase _action_phase self
  = Returned (tool, ctl) self' →
  isinstance_FinalAnswerTool tool = true →
  user_requested_stop self' = false →
  (state (_context self') = WAITING_FOR_CLARIFICATION
   ∧ state (_context self') ≠ COMPLETED
   ∧ clarification_received (_context self') = false
   ∧ step _reasoning_phase super_select_action_phase _action_phase
       {| agent := self; pc := LoopHead |}
     = Some {| agent := self'; pc := Suspended |})
  ∧ (∀ t t' : Task,
       pc t = LoopHead →
       step _reasoning_phase super_select_action_phase _action_phase t = Some t' →
       pc t' = Finished →
       user_requested_stop (agent t') = true
       ∨ state (_context (agent t')) = FAILED).
Proof.
  intros Hstart Hbody Htool Hstop.
  destruct (loop_body_final_answer _ _ _ _ Hbody Htool Hstop) as (Hst & Hev & ->).
  split.
  - split; [done|]. split; [by rewrite Hst|]. split; [done|].
    unfold InfiniteAgent.step. cbn [pc agent]. by rewrite Hstart, Hbody.
  - intros [a p] t' Hp Hstep Hfin. cbn in Hp. subst p.
    unfold InfiniteAgent.step in Hstep. cbn [pc agent] in Hstep.
    destruct (user_requested_stop a) eqn:Ha.
    + injection Hstep as <-. left. exact Ha.
    + destruct (loop_body _ _ _ a) as [[? []] a'|e a'];
        injection Hstep as <-; try discriminate. by right.
Qed.

(** What the handler does on a stop phrase: the agent is completed and
    the stop recorded, and the event is left as it was. *)
Lemma create_chat_completion_stop
    (self : Agent) (messages : list ChatMessage) (m : string) :
  extract_user_content_from_messages messages = Some m →
  wants_stop m = true →
  ∃ self' : Agent,
    create_chat_completion messages self = Returned tt self'
    ∧ state (_context self') = COMPLETED
    ∧ user_requested_stop self' = true
    ∧ clarification_received (_context self')
      = clarification_received (_context self).
Proof.
  intros Hm Hstop. unfold create_chat_completion. rewrite Hm.
  unfold mbind, M_bind, bind, modify, get, continue_conversation.
  rewrite Hstop. cbn. eauto.
Qed.

(** A coroutine suspended on a cleared event stays suspended after the
    handler has served a stop phrase. *)
Lemma stop_leaves_coroutine_suspended
    (self : Agent) (messages : list ChatMessage) (m : string) :
  extract_user_content_from_messages messages = Some m →
  wants_stop m = true →
  clarification_received (_context self) = false →
  ∃ self' : Agent,
    create_chat_completion messages self = Returned tt self'
    ∧ step _reasoning_phase super_select_action_phase _action_phase
        {| agent := self'; pc := Suspended |} = None.
Proof.
  intros Hm Hstop Hev.
  destruct (create_chat_completion_stop self messages m Hm Hstop)
    as (self' & E & _ & _ & Hev').
  exists self'. split; [done|].
  unfold InfiniteAgent.step. cbn [pc agent]. by rewrite Hev', Hev.
Qed.

End WithParent.

Lemma final_answer_waits_without_stop_witness :
  user_requested_stop (agent (execute_start new_agent)) = false
  ∧ loop_body answering_reasoning_phase answering_select_action_phase
      answering_action_phase (agent (execute_start new_agent))
    = Returned (FinalAnswerTool COMPLETED, Wait) (agent waiting_task)
  ∧ isinstance_FinalAnswerTool (FinalAnswerTool COMPLETED) = true
  ∧ user_requested_stop (agent waiting_task) = false
  ∧ state (_context (agent waiting_task)) = WAITING_FOR_CLARIFICATION
  ∧ state (_context (agent waiting_task)) ≠ COMPLETED
  ∧ clarification_received (_context (agent waiting_task)) = false
  ∧ step answering_reasoning_phase answering_select_action_phase
      answering_action_phase
      {| agent := agent (execute_start new_agent); pc := LoopHead |}
    = Some {| agent := agent waiting_task; pc := Suspended |}.
Proof.
  assert (H1 : user_requested_stop (agent (execute_start new_agent)) = false)
    by reflexivity.
  assert (H2 : loop_body answering_reasoning_phase answering_select_action_phase
                 answering_action_phase (agent (execute_start new_agent))
               = Returned (FinalAnswerTool COMPLETED, Wait) (agent waiting_task))
    by (vm_compute; reflexivity).
  assert (H3 : isinstance_FinalAnswerTool (FinalAnswerTool COMPLETED) = true)
    by reflexivity.
  assert (H4 : user_requested_stop (agent waiting_task) = false)
    by (vm_compute; reflexivity).
  split; [exact H1|]. split; [exact H2|]. split; [exact H3|]. split; [exact H4|].
  exact (proj1 (final_answer_waits_without_stop
                  answering_reasoning_phase answering_select_action_phase
                  answering_action_phase
                  (agent (execute_start new_agent)) (agent waiting_task)
                  (FinalAnswerTool COMPLETED) Wait H1 H2 H3 H4)).
Defined.

(** A coroutine that cannot run stays where it is. *)
Lemma run_blocked
    (_reasoning_phase : M Agent string)
    (super_select_action_phase : string → M Agent Tool)
    (_action_phase : Tool → M Agent unit) (t : Task) (n : nat) :
  step _reasoning_phase super_select_action_phase _action_phase t = None →
  run _reasoning_phase super_select_action_phase _action_phase n t = t.
Proof. intros H. destruct n; [done|]. cbn [run]. by rewrite H. Qed.

(** C1, on the code.  The agent has answered and is suspended on the
    cleared event in [WAITING_FOR_CLARIFICATION].  The handler serves the
    message ["stop"]: the state becomes [COMPLETED] and the stop is recorded,
    but the event stays cleared, so the coroutine remains suspended however
    long it is scheduled, and the stream is never finished. *)
Theorem stop_phrase_leaves_event_cleared :
  pc waiting_task = Suspended
  ∧ state (_context (agent waiting_task)) = WAITING_FOR_CLARIFICATION
  ∧ ∃ self' : Agent,
      create_chat_completion stop_request (agent waiting_task) = Returned tt self'
      ∧ state (_context self') = COMPLETED
      ∧ user_requested_stop self' = true
      ∧ clarification_received (_context self') = false
      ∧ streaming_finished self' = false
      ∧ ∀ n : nat,
          run answering_reasoning_phase answering_select_action_phase
            answering_action_phase n {| agent := self'; pc := Suspended |}
          = {| agent := self'; pc := Suspended |}.
Proof.
  split; [by vm_compute|]. split; [by vm_compute|].
  assert (Hm : extract_user_content_from_messages stop_request = Some "stop")
    by (vm_compute; reflexivity).
  assert (Hw : wants_stop "stop" = true) by (vm_compute; reflexivity).
  assert (Hev : clarification_received (_context (agent waiting_task)) = false)
    by (vm_compute; reflexivity).
  destruct (create_chat_completion_stop (agent waiting_task) stop_request "stop" Hm Hw)
    as (self' & E & Hst & Hstop & Hev').
  exists self'. split; [done|]. split; [done|]. split; [done|].
  split; [congruence|].
  assert (Hfin : streaming_finished self' = false).
  { revert E. vm_compute. by intros [= <-]. }
  split; [done|]. intros n. apply run_blocked.
  unfold step. cbn [pc agent]. by rewrite Hev', Hev.
Qed.

End AgentClaims.

(** ** Claims on the list objects *)

Module ObjectsFacts.

Import Objects.


Lemma runs_bind {A B} (c : M heap A) (k : A → M heap B) (h : heap)
    (Q : B → heap → Prop) :
  runs c h (λ a h', runs (k a) h' Q) → runs (c ≫= k) h Q.
Proof.
  intros (a & h' & E & b & h'' & E' & HQ). exists b, h''. split; [|done].
  unfold mbind, M_bind, bind. by rewrite E.
Qed.


Lemma runs_elements_of (p : loc) (l : list Message) (h : heap)
    (Q : list Message → heap → Prop) :
  h !! p = Some l → Q l h → runs (elements_of p) h Q.
Proof. intros E H. exists l, h. split; [|done]. unfold elements_of. by rewrite E. Qed.

Lemma runs_append (p : loc) (m : Message) (l : list Message) (h : heap)
    (Q : unit → heap → Prop) :
  h !! p = Some l → Q tt (<[p := l ++ [m]]> h) → runs (append p m) h Q.
Proof.
  intros E H. exists tt, (<[p := l ++ [m]]> h). split; [|done].
  unfold append. by rewrite E.
Qed.





End ObjectsFacts.

Module ObjectsClaims.

Import Objects ObjectsFacts Scenario.


Ltac read l := eapply runs_bind, (runs_elements_of _ l); [by simplify_map_eq|].



Section WithManager.

Variable self : ContextWindowManager.




End WithManager.


End ObjectsClaims.

(** * Further properties *)

(** ** The other truncation strategies *)

Module StrategyProperties.

Import ContextManager Selection CountFacts TruncateFacts Strategies Scenario Scenario2.

Lemma slice_from_neg {A} (n : Z) (l : list A) :
  0 < n → PySlice.slice_from (- n) l = Py.slice_last (Z.to_nat n) l.
Proof.
  intros Hn. unfold PySlice.slice_from, Py.slice_last.
  destruct (Z.leb_spec 0 (- n)); [lia|]. by rewrite Z.opp_involutive.
Qed.

Lemma slice_from_zero {A} (l : list A) : PySlice.slice_from (- 0) l = l.
Proof. reflexivity. Qed.

Lemma slice_to_nonneg {A} (n : Z) (l : list A) :
  0 ≤ n → PySlice.slice_to n l = take (Z.to_nat n) l.
Proof. intros Hn. unfold PySlice.slice_to. by destruct (Z.leb_spec 0 n); [|lia]. Qed.

Lemma slice_last_sublist {A} (n : nat) (l : list A) : sublist (Py.slice_last n l) l.
Proof. apply sublist_drop. Qed.

Lemma slice_last_exact {A} (n : nat) (l : list A) :
  (n ≤ length l)%nat → length (Py.slice_last n l) = n.
Proof. intros H. unfold Py.slice_last. rewrite length_drop. lia. Qed.

(** The first [a] and the last [b] messages do not overlap in a longer list. *)
Lemma take_slice_last_sublist {A} (a b : nat) (l : list A) :
  (a + b ≤ length l)%nat → sublist (take a l ++ Py.slice_last b l) l.
Proof.
  intros H. unfold Py.slice_last.
  assert (Hs : sublist (take a l ++ drop (length l - b) l) (take a l ++ drop a l)).
  { apply sublist_app; [done|].
    replace (length l - b)%nat with (a + (length l - b - a))%nat by lia.
    rewrite <- drop_drop. apply sublist_drop. }
  by rewrite take_drop in Hs.
Qed.

(** The first message and the last [b] messages of a list longer than [b]. *)
Lemma head_slice_last_sublist {A} (x : A) (b : nat) (l : list A) :
  (b ≤ length l)%nat → sublist (x :: Py.slice_last b (x :: l)) (x :: l).
Proof.
  intros H. unfold Py.slice_last. cbn [length].
  replace (S (length l) - b)%nat with (S (length l - b)) by lia.
  cbn [drop skipn]. constructor. apply sublist_drop.
Qed.

(** X1.  With non-negative keeps that add up to at least five,
    [truncate_conversation] never raises; it returns the conversation itself,
    or a subsequence of it with one summary message inserted, and that
    summary always states [len(conversation) - keep_first_n - keep_last_n]. *)
Theorem truncate_conversation_shape
    (self : ContextWindowManager) (C : Conversation) (keep_first_n keep_last_n : Z) :
  0 ≤ keep_first_n → 0 ≤ keep_last_n → 5 ≤ keep_first_n + keep_last_n →
  ∃ R : Conversation,
    truncate_conversation self C keep_first_n keep_last_n = Some R
    ∧ (R = C
       ∨ ∃ pre suf : list Message,
           R = pre
               ++ truncation_summary (Py.len C - keep_first_n - keep_last_n) :: suf
           ∧ sublist (pre ++ suf) C).
Proof.
  intros Hf Hl H5. unfold truncate_conversation.
  destruct (Z.leb_spec (Py.len C) (keep_first_n + keep_last_n)) as [|Hlen];
    [eexists; split; [done|by left]|].
  destruct (Z.leb_spec (count_tokens self C) (available_tokens self)) as [|Hover];
    [eexists; split; [done|by left]|].
  set (s := truncation_summary (Py.len C - keep_first_n - keep_last_n)).
  destruct (Z.ltb_spec (available_tokens self)
              (count_tokens self (PySlice.slice_to keep_first_n C ++ [s]
                                  ++ PySlice.slice_from (- keep_last_n) C)))
    as [Hbig|Hfit].
  - destruct C as [|c0 rest]; [unfold Py.len in Hlen; cbn in Hlen; lia|].
    eexists. split; [done|]. right. exists [c0], (PySlice.slice_from (-5) (c0 :: rest)).
    split; [done|]. rewrite (slice_from_neg 5) by lia.
    apply head_slice_last_sublist. unfold Py.len in Hlen. cbn [length] in Hlen. lia.
  - eexists. split; [done|]. right.
    exists (PySlice.slice_to keep_first_n C), (PySlice.slice_from (- keep_last_n) C).
    split; [done|]. rewrite slice_to_nonneg by done.
    destruct (decide (keep_last_n = 0)) as [->|Hne].
    + exfalso. rewrite slice_from_zero in Hfit.
      rewrite !count_tokens_app in Hfit.
      pose proof (count_tokens_nonneg self (PySlice.slice_to keep_first_n C)).
      pose proof (count_tokens_nonneg self [s]). lia.
    + rewrite slice_from_neg by lia. apply take_slice_last_sublist.
      unfold Py.len in Hlen. lia.
Qed.

Lemma truncate_conversation_shape_witness :
  0 ≤ 2 ∧ 0 ≤ 10 ∧ 5 ≤ 2 + 10
  ∧ ∃ R : Conversation,
      truncate_conversation manager_600 twenty_messages 2 10 = Some R
      ∧ (R = twenty_messages
         ∨ ∃ pre suf : list Message,
             R = pre ++ truncation_summary (Py.len twenty_messages - 2 - 10) :: suf
             ∧ sublist (pre ++ suf) twenty_messages).
Proof.
  assert (H1 : 0 ≤ 2) by lia. assert (H2 : 0 ≤ 10) by lia.
  assert (H3 : 5 ≤ 2 + 10) by lia.
  split; [exact H1|]. split; [exact H2|]. split; [exact H3|].
  exact (truncate_conversation_shape manager_600 twenty_messages 2 10 H1 H2 H3).
Defined.



(** X3.  On a conversation of at most five messages the aggressive fallback
    of [truncate_conversation] keeps everything: the result is the first
    message and the summary followed by the whole conversation, the first
    message a second time. *)
Theorem truncate_conversation_short_fallback
    (self : ContextWindowManager) (c0 : Message) (rest : list Message)
    (keep_first_n keep_last_n : Z) :
  Py.len (c0 :: rest) ≤ 5 →
  keep_first_n + keep_last_n < Py.len (c0 :: rest) →
  available_tokens self < count_tokens self (c0 :: rest) →
  available_tokens self
  < count_tokens self
      (PySlice.slice_to keep_first_n (c0 :: rest)
       ++ [truncation_summary (Py.len (c0 :: rest) - keep_first_n - keep_last_n)]
       ++ PySlice.slice_from (- keep_last_n) (c0 :: rest)) →
  truncate_conversation self (c0 :: rest) keep_first_n keep_last_n
  = Some (c0
          :: truncation_summary (Py.len (c0 :: rest) - keep_first_n - keep_last_n)
          :: c0 :: rest).
Proof.
  intros H5 Hlen Hover Hbig. unfold truncate_conversation.
  destruct (Z.leb_spec (Py.len (c0 :: rest)) (keep_first_n + keep_last_n)); [lia|].
  destruct (Z.leb_spec (count_tokens self (c0 :: rest)) (available_tokens self));
    [lia|].
  destruct (Z.ltb_spec (available_tokens self)
              (count_tokens self
                 (PySlice.slice_to keep_first_n (c0 :: rest)
                  ++ [truncation_summary
                        (Py.len (c0 :: rest) - keep_first_n - keep_last_n)]
                  ++ PySlice.slice_from (- keep_last_n) (c0 :: rest)))); [|lia].
  do 3 f_equal. rewrite (slice_from_neg 5) by lia.
  unfold Py.slice_last, Py.len in *.
  by replace (length (c0 :: rest) - Z.to_nat 5)%nat with 0%nat by lia.
Qed.

Lemma truncate_conversation_short_fallback_witness :
  truncate_conversation manager_5 two_messages 1 0
  = Some [text "user" "Task: hi";
          truncation_summary 1;
          text "user" "Task: hi"; text "assistant" "hello"].
Proof.
  refine (truncate_conversation_short_fallback manager_5
            (text "user" "Task: hi") [text "assistant" "hello"] 1 0 _ _ _ _).
  - vm_compute. discriminate.
  - vm_compute. reflexivity.
  - vm_compute. reflexivity.
  - vm_compute. reflexivity.
Defined.

Lemma slice_last_app_exact {A} (n : nat) (l1 l2 : list A) :
  length l2 = n → Py.slice_last n (l1 ++ l2) = l2.
Proof.
  intros <-. unfold Py.slice_last. rewrite length_app.
  replace (length l1 + length l2 - length l2)%nat with (length l1) by lia.
  by rewrite drop_app_length.
Qed.

(** [sliding_window_truncate] on a conversation longer than a positive
    window. *)
Lemma sliding_window_over (c0 : Message) (rest : list Message) (window_size : Z) :
  1 ≤ window_size → window_size < Py.len (c0 :: rest) →
  sliding_window_truncate (c0 :: rest) window_size
  = Some (c0 :: window_summary (Py.len (c0 :: rest) - window_size - 1) window_size
          :: Py.slice_last (Z.to_nat window_size) (c0 :: rest)).
Proof.
  intros Hw Hlen. unfold sliding_window_truncate.
  destruct (Z.leb_spec (Py.len (c0 :: rest)) window_size); [lia|].
  by rewrite slice_from_neg by lia.
Qed.

(** X4.  On a conversation longer than a positive window,
    [sliding_window_truncate] returns the first message, the summary and the
    last [window_size] messages: [window_size + 2] messages, a subsequence of
    the conversation but for the summary, whose count is the number of
    messages that are missing from the result. *)
Theorem sliding_window_shape (C : Conversation) (window_size : Z) :
  1 ≤ window_size → window_size < Py.len C →
  ∃ (c0 : Message) (R : Conversation) (n : Z),
    head C = Some c0
    ∧ sliding_window_truncate C window_size = Some R
    ∧ R = c0 :: window_summary n window_size
          :: Py.slice_last (Z.to_nat window_size) C
    ∧ Py.len R = window_size + 2
    ∧ n = Py.len C - (Py.len R - 1)
    ∧ sublist (c0 :: Py.slice_last (Z.to_nat window_size) C) C.
Proof.
  intros Hw Hlen. destruct C as [|c0 rest]; [unfold Py.len in Hlen; cbn in Hlen; lia|].
  eexists c0, _, _. split; [done|].
  split; [by apply sliding_window_over|]. split; [done|].
  assert (HR : Py.len (c0 :: window_summary (Py.len (c0 :: rest) - window_size - 1)
                              window_size
                         :: Py.slice_last (Z.to_nat window_size) (c0 :: rest))
               = window_size + 2).
  { unfold Py.len in *. cbn [length] in *. rewrite slice_last_exact by (cbn [length]; lia).
    lia. }
  split; [exact HR|]. split; [rewrite HR; lia|].
  apply head_slice_last_sublist. unfold Py.len in Hlen. cbn [length] in Hlen. lia.
Qed.

Lemma sliding_window_shape_witness :
  ∃ (c0 : Message) (R : Conversation) (n : Z),
    head ten_messages = Some c0
    ∧ sliding_window_truncate ten_messages 3 = Some R
    ∧ R = c0 :: window_summary n 3 :: Py.slice_last (Z.to_nat 3) ten_messages
    ∧ Py.len R = 3 + 2
    ∧ n = Py.len ten_messages - (Py.len R - 1)
    ∧ sublist (c0 :: Py.slice_last (Z.to_nat 3) ten_messages) ten_messages.
Proof.
  refine (sliding_window_shape ten_messages 3 _ _).
  - lia.
  - vm_compute. reflexivity.
Defined.

(** X5.  With a window of zero nothing is dropped: [conversation[-0:]] is
    the whole conversation, so the result is the first message and a summary
    followed by the whole conversation. *)
Theorem sliding_window_zero (c0 : Message) (rest : list Message) :
  sliding_window_truncate (c0 :: rest) 0
  = Some (c0 :: window_summary (Py.len (c0 :: rest) - 1) 0 :: c0 :: rest).
Proof.
  unfold sliding_window_truncate.
  destruct (Z.leb_spec (Py.len (c0 :: rest)) 0) as [H|H];
    [unfold Py.len in H; cbn [length] in H; lia|].
  rewrite slice_from_zero. do 3 f_equal; lia.
Qed.

(** X6.  Applying [sliding_window_truncate] to its own result keeps the
    first message and the window but rewrites the summary to one removed
    message; from then on the result is stable. *)
Theorem sliding_window_twice (C : Conversation) (window_size : Z) :
  1 ≤ window_size → window_size < Py.len C →
  ∃ (c0 : Message) (R1 R2 : Conversation),
    head C = Some c0
    ∧ sliding_window_truncate C window_size = Some R1
    ∧ sliding_window_truncate R1 window_size = Some R2
    ∧ R2 = c0 :: window_summary 1 window_size
           :: Py.slice_last (Z.to_nat window_size) C
    ∧ sliding_window_truncate R2 window_size = Some R2.
Proof.
  intros Hw Hlen. destruct C as [|c0 rest]; [unfold Py.len in Hlen; cbn in Hlen; lia|].
  set (L := Py.slice_last (Z.to_nat window_size) (c0 :: rest)).
  assert (HL : length L = Z.to_nat window_size).
  { apply slice_last_exact. unfold Py.len in Hlen. lia. }
  assert (Hagain : ∀ s : Message,
            sliding_window_truncate (c0 :: s :: L) window_size
            = Some (c0 :: window_summary 1 window_size :: L)).
  { intros s. rewrite sliding_window_over;
      [|done|unfold Py.len; cbn [length]; lia].
    replace (Py.len (c0 :: s :: L) - window_size - 1) with 1
      by (unfold Py.len; cbn [length]; lia).
    change (c0 :: s :: L) with ([c0; s] ++ L).
    by rewrite (slice_last_app_exact _ [c0; s] L HL). }
  eexists c0, _, _. split; [done|]. split; [by apply sliding_window_over|].
  fold L. split; [apply Hagain|]. split; [done|apply Hagain].
Qed.

Lemma sliding_window_twice_witness :
  ∃ (c0 : Message) (R1 R2 : Conversation),
    head ten_messages = Some c0
    ∧ sliding_window_truncate ten_messages 3 = Some R1
    ∧ sliding_window_truncate R1 3 = Some R2
    ∧ R2 = c0 :: window_summary 1 3 :: Py.slice_last (Z.to_nat 3) ten_messages
    ∧ sliding_window_truncate R2 3 = Some R2.
Proof.
  refine (sliding_window_twice ten_messages 3 _ _).
  - lia.
  - vm_compute. reflexivity.
Defined.

End StrategyProperties.

(** ** More on [count_tokens] and [smart_truncate] *)

Module TruncateProperties.

Import ContextManager Selection CountFacts TruncateFacts Scenario Scenario2.

Lemma drop_suffix_drop {A} (a b : nat) (l : list A) :
  (b ≤ a)%nat → drop a l `suffix_of` drop b l.
Proof.
  intros H. replace a with (b + (a - b))%nat by lia.
  rewrite <- drop_drop. apply suffix_drop.
Qed.

Lemma recent_threshold_pos (C : Conversation) : (1 ≤ recent_threshold C)%nat.
Proof. unfold recent_threshold. lia. Qed.

Lemma recent_threshold_le (C : Conversation) :
  (recent_threshold C ≤ 1 + (length C - 1 - 6))%nat.
Proof. unfold recent_threshold, Py.len. lia. Qed.

(** The last six messages after the first are a suffix of the recent ones. *)
Lemma last_six_suffix_recent (C : Conversation) :
  Py.slice_last 6 (drop 1 C) `suffix_of` recent C.
Proof.
  unfold Py.slice_last, recent. rewrite drop_drop, length_drop.
  apply drop_suffix_drop, recent_threshold_le.
Qed.

(** In the fallback the tail is exactly the last six messages after the
    first. *)
Lemma fallback_tail_last_six (C : Conversation) :
  Py.slice_last 6 (recent C) = Py.slice_last 6 (drop 1 C).
Proof.
  unfold Py.slice_last, recent. rewrite !drop_drop, !length_drop. f_equal.
  pose proof (recent_threshold_pos C). pose proof (recent_threshold_le C).
  unfold recent_threshold, Py.len in *. lia.
Qed.

(** X7.  Whatever [smart_truncate] does, its result ends with the last six
    messages of the conversation that follow the first one (with all of them
    when they are fewer). *)
Theorem smart_truncate_keeps_recent
    (self : ContextWindowManager) (C : Conversation) (p : bool) :
  Py.slice_last 6 (drop 1 C) `suffix_of` smart_truncate self C p.
Proof.
  rewrite smart_truncate_unfold.
  destruct (count_tokens self C <=? available_tokens self).
  - etrans; [apply slice_last_suffix|apply suffix_drop].
  - destruct (available_tokens self <? count_tokens self (first_stage p C)).
    + rewrite fallback_tail_last_six.
      apply suffix_app_r. by apply suffix_cons_r.
    + unfold first_stage. do 2 apply suffix_app_r. apply last_six_suffix_recent.
Qed.

(** The conversation is its first message, its middle and its recent
    messages. *)
Lemma conversation_split (C : Conversation) :
  C = initial_task_of C ++ middle C ++ recent C.
Proof.
  unfold middle, recent. destruct C as [|c0 rest]; [by rewrite !drop_nil|].
  pose proof (recent_threshold_pos (c0 :: rest)).
  destruct (recent_threshold (c0 :: rest)) as [|k]; [lia|].
  cbn [initial_task_of drop skipn app Nat.sub]. rewrite Nat.sub_0_r.
  by rewrite take_drop.
Qed.

(** X8.  When the first stage of [smart_truncate] is what it returns, every
    tool result of the conversation is in it (with [preserve_tool_results]),
    and so is every message that calls one of the three important tools. *)
Theorem smart_truncate_preserves_important
    (self : ContextWindowManager) (C : Conversation) (m : Message) :
  count_tokens self (first_stage true C) ≤ available_tokens self →
  m ∈ C →
  role m = "tool"
  ∨ (tool_calls m ≠ [] ∧ any_important (tool_names m) = true) →
  m ∈ smart_truncate self C true.
Proof.
  intros Hfit Hm Himp. rewrite smart_truncate_unfold.
  destruct (count_tokens self C <=? available_tokens self); [done|].
  destruct (Z.ltb_spec (available_tokens self) (count_tokens self (first_stage true C)));
    [lia|].
  assert (His : is_important true m = true).
  { unfold is_important. destruct Himp as [->|[Hcalls ->]]; [done|].
    destruct (tool_calls m); [done|]. cbn. by rewrite orb_true_r. }
  rewrite (conversation_split C) in Hm. unfold first_stage, important.
  rewrite !elem_of_app in *. destruct Hm as [?|[Hmid|?]]; [by left| |by right; right].
  right; left. apply list_elem_of_In, filter_In. by rewrite <- list_elem_of_In.
Qed.

Lemma smart_truncate_preserves_important_witness :
  text "tool" "found: 3 sources" ∈ smart_truncate manager_80 with_tool_result true.
Proof.
  refine (smart_truncate_preserves_important manager_80 with_tool_result
            (text "tool" "found: 3 sources") _ _ _).
  - vm_compute. discriminate.
  - unfold with_tool_result. do 2 apply list_elem_of_further. apply list_elem_of_here.
  - left. reflexivity.
Defined.

(** X9.  The result of [smart_truncate] has at most one message more than
    the conversation, and a result that is over the available tokens has
    at most eight messages. *)
Theorem smart_truncate_length
    (self : ContextWindowManager) (C : Conversation) (p : bool) :
  (length (smart_truncate self C p) ≤ length C + 1)%nat
  ∧ (count_tokens self (smart_truncate self C p) ≤ available_tokens self
     ∨ (length (smart_truncate self C p) ≤ 8)%nat).
Proof.
  rewrite smart_truncate_unfold.
  destruct (Z.leb_spec (count_tokens self C) (available_tokens self)).
  { split; [lia|by left]. }
  destruct (Z.ltb_spec (available_tokens self) (count_tokens self (first_stage p C))).
  - pose proof (sublist_length _ _ (fallback_sublist C)) as Hs.
    pose proof (slice_last_length 6 (recent C)).
    rewrite !length_app in *. cbn [length].
    split; [lia|]. right. destruct C; cbn [initial_task_of length]; lia.
  - pose proof (sublist_length _ _ (first_stage_sublist p C)).
    split; [lia|by left].
Qed.

(** X10.  The token count of a conversation is the sum of the counts of its
    parts, whatever the order of the messages. *)
Theorem count_tokens_additive
    (self : ContextWindowManager) (C1 C2 C3 : Conversation) :
  count_tokens self (C1 ++ C2) = count_tokens self C1 + count_tokens self C2
  ∧ (C1 ≡ₚ C3 → count_tokens self C1 = count_tokens self C3).
Proof.
  split; [apply count_tokens_app|].
  induction 1 as [|m l1 l2 _ IH|m1 m2 l|l1 l2 l3 _ IH1 _ IH2].
  - done.
  - rewrite !count_tokens_cons. lia.
  - rewrite !count_tokens_cons. lia.
  - lia.
Qed.

Lemma count_tokens_additive_witness :
  two_messages ≡ₚ reverse two_messages
  ∧ count_tokens manager_5 two_messages = count_tokens manager_5 (reverse two_messages).
Proof.
  assert (H : two_messages ≡ₚ reverse two_messages)
    by (symmetry; apply reverse_Permutation).
  split; [exact H|].
  exact (proj2 (count_tokens_additive manager_5 two_messages [] (reverse two_messages)) H).
Defined.

(** X11.  Every message costs at least four tokens, so a conversation that
    is within the available tokens has at most a quarter of them as
    messages. *)
Theorem count_tokens_at_least_four_each
    (self : ContextWindowManager) (C : Conversation) :
  4 * Py.len C ≤ count_tokens self C
  ∧ (count_tokens self C ≤ available_tokens self →
     4 * Py.len C ≤ available_tokens self).
Proof.
  assert (H : 4 * Py.len C ≤ count_tokens self C).
  { unfold Py.len. induction C as [|m C IH]; [by rewrite count_tokens_nil|].
    rewrite count_tokens_cons. pose proof (message_tokens_ge_4 self m).
    cbn [length]. lia. }
  split; [done|lia].
Qed.

Lemma count_tokens_at_least_four_each_witness :
  count_tokens manager_600 ten_messages ≤ available_tokens manager_600
  ∧ 4 * Py.len ten_messages ≤ available_tokens manager_600.
Proof.
  assert (H : count_tokens manager_600 ten_messages ≤ available_tokens manager_600)
    by (vm_compute; discriminate).
  split; [exact H|].
  exact (proj2 (count_tokens_at_least_four_each manager_600 ten_messages) H).
Defined.

End TruncateProperties.

(** ** More on the infinite agent and its endpoint *)

Module AgentProperties.

Import Agent InfiniteAgent Endpoints Requests Scenario Scenario2.

Lemma bind_raised {S A B} (c : M S A) (k : A → M S B) (s s' : S) (e : string) :
  (c ≫= k) s = Raised e s' →
  c s = Raised e s' ∨ ∃ a s1, c s = Returned a s1 ∧ k a s1 = Raised e s'.
Proof.
  unfold mbind, M_bind, bind. destruct (c s) as [a s1|e1 s1]; [eauto|].
  intros [= -> ->]. by left.
Qed.

Section WithParent.

Variable _reasoning_phase : M Agent string.
Variable super_select_action_phase : string → M Agent Tool.
Variable _action_phase : Tool → M Agent unit.

(** X12.  A pass of the loop that ran a [ClarificationTool] always ends
    suspended in [WAITING_FOR_CLARIFICATION] with the event cleared, also
    when a stop has been recorded in the meantime. *)
Theorem clarification_always_pauses
    (self self' : Agent) (tool : Tool) (ctl : LoopCtl) :
  loop_body _reasoning_phase super_select_action_phase _action_phase self
  = Returned (tool, ctl) self' →
  is_ClarificationTool tool = true →
  state (_context self') = WAITING_FOR_CLARIFICATION
  ∧ clarification_received (_context self') = false
  ∧ ctl = Wait.
Proof.
  intros Hbody Htool. unfold loop_body in Hbody.
  apply AgentClaims.bind_returned in Hbody as (? & s1 & _ & Hbody).
  apply AgentClaims.bind_returned in Hbody as (reasoning & s2 & _ & Hbody).
  apply AgentClaims.bind_returned in Hbody as (? & s3 & _ & Hbody).
  apply AgentClaims.bind_returned in Hbody as (action_tool & s4 & _ & Hbody).
  apply AgentClaims.bind_returned in Hbody as (? & s5 & _ & Hbody).
  destruct (is_ClarificationTool action_tool) eqn:Hclar.
  - apply AgentClaims.bind_returned in Hbody as (? & s6 & Hpause & Hret).
    rewrite (AgentClaims.pause_returned s5) in Hpause.
    unfold mret, M_ret, ret in Hret. by simplify_eq.
  - apply AgentClaims.bind_returned in Hbody as (s5' & s6 & Hget & Hbody).
    unfold get in Hget. simplify_eq.
    destruct (isinstance_FinalAnswerTool action_tool && negb (user_requested_stop s6)).
    + apply AgentClaims.bind_returned in Hbody as (? & s7 & Hpause & Hret).
      unfold mret, M_ret, ret in Hret. simplify_eq. congruence.
    + unfold mret, M_ret, ret in Hbody. simplify_eq. congruence.
Qed.


(** X14.  [_select_action_phase] hands back the tool the parent class
    selected and the agent the parent class left, except that the state is
    set to [RESEARCHING] for a final answer with status [COMPLETED] when no
    stop is recorded; an exception of the parent class is passed on. *)
Theorem select_action_phase_frame (reasoning : string) (self : Agent) :
  match _select_action_phase super_select_action_phase reasoning self with
  | Returned tool self' =>
      ∃ self1 : Agent,
        super_select_action_phase reasoning self = Returned tool self1
        ∧ (self' = self1
           ∨ (self' = set_state RESEARCHING self1
              ∧ tool = FinalAnswerTool COMPLETED
              ∧ is_infinite self1 = true
              ∧ user_requested_stop self1 = false))
  | Raised e self' => super_select_action_phase reasoning self = Raised e self'
  end.
Proof.
  unfold _select_action_phase, mbind, M_bind, bind, get.
  destruct (super_select_action_phase reasoning self) as [tool self1|e self1]; [|done].
  destruct tool as [status| |name]; cbn; try (exists self1; by split; [|left]).
  destruct (is_infinite self1) eqn:Hinf; cbn; [|exists self1; by split; [|left]].
  destruct (user_requested_stop self1) eqn:Hstop; cbn;
    [exists self1; by split; [|left]|].
  destruct (bool_decide_reflect (status = COMPLETED)) as [->|Hne]; cbn.
  - exists self1. split; [done|]. by right.
  - exists self1. by split; [|left].
Qed.

(** X15.  If the phases of the parent class leave the iteration counter
    alone, a pass of the loop that returns has increased it by exactly one. *)
Theorem loop_body_counts_iterations
    (self self' : Agent) (tool : Tool) (ctl : LoopCtl) :
  (∀ a r a', _reasoning_phase a = Returned r a' →
     iteration (_context a') = iteration (_context a)) →
  (∀ r a tool a', super_select_action_phase r a = Returned tool a' →
     iteration (_context a') = iteration (_context a)) →
  (∀ tool a u a', _action_phase tool a = Returned u a' →
     iteration (_context a') = iteration (_context a)) →
  loop_body _reasoning_phase super_select_action_phase _action_phase self
  = Returned (tool, ctl) self' →
  iteration (_context self') = iteration (_context self) + 1.
Proof.
  intros Hr Hs Ha Hbody. unfold loop_body in Hbody.
  apply AgentClaims.bind_returned in Hbody as (? & s1 & H1 & Hbody).
  apply AgentClaims.bind_returned in Hbody as (reasoning & s2 & H2 & Hbody).
  apply AgentClaims.bind_returned in Hbody as (? & s3 & H3 & Hbody).
  apply AgentClaims.bind_returned in Hbody as (action_tool & s4 & H4 & Hbody).
  apply AgentClaims.bind_returned in Hbody as (? & s5 & H5 & Hbody).
  unfold modify in H1, H3. simplify_eq.
  apply Hr in H2. apply Ha in H5.
  assert (H4' : iteration (_context s4)
                = iteration (_context (set_current_step_reasoning reasoning s2))).
  { pose proof (select_action_phase_frame reasoning
                  (set_current_step_reasoning reasoning s2)) as Hf.
    rewrite H4 in Hf. destruct Hf as (s & Hsup%Hs & [->|(-> & _)]); [done|].
    exact Hsup. }
  assert (Hend : iteration (_context self') = iteration (_context s5)).
  { destruct (is_ClarificationTool action_tool).
    - apply AgentClaims.bind_returned in Hbody as (? & s6 & Hpause & Hret).
      rewrite (AgentClaims.pause_returned s5) in Hpause.
      unfold mret, M_ret, ret in Hret. by simplify_eq.
    - apply AgentClaims.bind_returned in Hbody as (? & s6 & Hget & Hbody).
      unfold get in Hget. simplify_eq.
      destruct (isinstance_FinalAnswerTool action_tool && negb (user_requested_stop s6)).
      + apply AgentClaims.bind_returned in Hbody as (? & s7 & Hpause & Hret).
        rewrite (AgentClaims.pause_returned s6) in Hpause.
        unfold mret, M_ret, ret in Hret. by simplify_eq.
      + unfold mret, M_ret, ret in Hbody. by simplify_eq. }
  rewrite Hend, H5, H4'. cbn. rewrite H2. by cbn.
Qed.

End WithParent.

Lemma clarification_always_pauses_witness :
  ∃ self' : Agent,
    loop_body answering_reasoning_phase asking_select_action_phase
      answering_action_phase (agent (execute_start new_agent))
    = Returned (ClarificationTool, Wait) self'
    ∧ state (_context self') = WAITING_FOR_CLARIFICATION
    ∧ clarification_received (_context self') = false.
Proof.
  eexists. split; [vm_compute; reflexivity|].
  refine (let H := clarification_always_pauses answering_reasoning_phase
                     asking_select_action_phase answering_action_phase
                     (agent (execute_start new_agent)) _ ClarificationTool Wait
                     eq_refl eq_refl in _).
  split; [exact (proj1 H)|exact (proj1 (proj2 H))].
Defined.


Lemma loop_body_counts_iterations_witness :
  iteration (_context (agent waiting_task))
  = iteration (_context (agent (execute_start new_agent))) + 1.
Proof.
  refine (loop_body_counts_iterations answering_reasoning_phase
            answering_select_action_phase answering_action_phase
            (agent (execute_start new_agent)) (agent waiting_task)
            (FinalAnswerTool COMPLETED) Wait _ _ _ _).
  - intros a r a' [= _ <-]. reflexivity.
  - intros r a tool a' [= _ <-]. reflexivity.
  - intros tool a u a' H.
    destruct tool; unfold answering_action_phase, modify, mret, M_ret, ret in H;
      by simplify_eq.
  - vm_compute. reflexivity.
Defined.

(** What [continue_conversation] leaves alone. *)
Lemma continue_conversation_frame (message : string) (self : Agent) :
  (user_requested_stop self = true →
   user_requested_stop (continue_conversation message self) = true)
  ∧ (wants_stop message = false →
     user_requested_stop (continue_conversation message self)
     = user_requested_stop self
     ∧ conversation (continue_conversation message self)
       = conversation self ++ [user_message message])
  ∧ clarification_received (_context (continue_conversation message self))
    = clarification_received (_context self).
Proof.
  unfold continue_conversation. destruct (wants_stop message); [done|].
  cbn [set_conversation _context state]. by destruct (bool_decide _).
Qed.



Lemma extract_none_iff (messages : list ChatMessage) :
  extract_user_content_from_messages messages = None
  ↔ ∀ m', m' ∈ messages → msg_role m' ≠ "user".
Proof.
  unfold extract_user_content_from_messages.
  destruct (find _ (reverse messages)) as [m0|] eqn:E.
  - apply find_some in E as [Hin Hrole].
    apply list_elem_of_In in Hin. rewrite elem_of_reverse in Hin.
    apply bool_decide_eq_true in Hrole.
    split; [done|]. intros H. by destruct (H m0 Hin).
  - split; [|done]. intros _ m' Hin Hrole.
    assert (Hin' : In m' (reverse messages))
      by (apply list_elem_of_In; by rewrite elem_of_reverse).
    pose proof (find_none _ _ E m' Hin') as Hf. cbn in Hf.
    by apply bool_decide_eq_false in Hf.
Qed.

(** X17.  [extract_user_content_from_messages] gives the content of the
    last message of role ["user"]: a message appended to the request decides
    the result when it is a user message and changes nothing otherwise; and
    the [ValueError] is raised exactly when no message has that role. *)
Theorem extract_user_content_last (messages : list ChatMessage) (m : ChatMessage) :
  extract_user_content_from_messages (messages ++ [m])
  = (if bool_decide (msg_role m = "user") then Some (msg_content m)
     else extract_user_content_from_messages messages)
  ∧ (extract_user_content_from_messages messages = None
     ↔ ∀ m', m' ∈ messages → msg_role m' ≠ "user").
Proof.
  split; [|apply extract_none_iff].
  unfold extract_user_content_from_messages. rewrite reverse_snoc. cbn [find].
  by destruct (bool_decide (msg_role m = "user")).
Qed.

(** X18.  A request without a user message raises and leaves the agent as
    it was. *)
Theorem request_without_user_message (messages : list ChatMessage) (self : Agent) :
  (∀ m, m ∈ messages → msg_role m ≠ "user") →
  create_chat_completion messages self
  = Raised "User message not found in messages" self.
Proof.
  intros H. unfold create_chat_completion.
  by rewrite (proj2 (extract_none_iff messages) H).
Qed.


(** One request served to an agent with a recorded stop. *)
Lemma serve_after_stop (messages : list ChatMessage) (self : Agent) :
  user_requested_stop self = true →
  user_requested_stop (serve messages self) = true
  ∧ clarification_received (_context (serve messages self))
    = clarification_received (_context self).
Proof.
  intros Hstop. unfold serve, create_chat_completion.
  destruct (extract_user_content_from_messages messages) as [m|]; [|done].
  unfold mbind, M_bind, bind, modify, get.
  destruct (continue_conversation_frame m self) as (Hkeep & _ & Hev).
  rewrite (Hkeep Hstop). cbn [negb]. by split; [apply Hkeep|].
Qed.

(** X20.  Once a stop is recorded, no sequence of continuation requests
    clears it or sets the event: a coroutine suspended on the cleared event
    cannot be resumed through this endpoint. *)
Theorem stopped_agent_never_released
    (requests : list (list ChatMessage)) (self : Agent) :
  user_requested_stop self = true →
  user_requested_stop (serve_all requests self) = true
  ∧ clarification_received (_context (serve_all requests self))
    = clarification_received (_context self).
Proof.
  unfold serve_all. revert self.
  induction requests as [|messages requests IH]; intros self Hstop; [done|].
  cbn [fold_left].
  destruct (serve_after_stop messages self Hstop) as [Hstop' Hev].
  destruct (IH _ Hstop') as [H1 H2]. split; [done|congruence].
Qed.

Lemma stopped_agent_never_released_witness :
  user_requested_stop (serve stop_request (agent waiting_task)) = true
  ∧ clarification_received
      (_context (serve_all [question_request; empty_request; question_request]
                   (serve stop_request (agent waiting_task))))
    = clarification_received (_context (serve stop_request (agent waiting_task))).
Proof.
  assert (H : user_requested_stop (serve stop_request (agent waiting_task)) = true)
    by (vm_compute; reflexivity).
  split; [exact H|].
  exact (proj2 (stopped_agent_never_released
                  [question_request; empty_request; question_request]
                  (serve stop_request (agent waiting_task)) H)).
Defined.

Lemma no_user_in_empty_request :
  ∀ m, m ∈ empty_request → msg_role m ≠ "user".
Proof.
  intros m Hin. unfold empty_request in Hin.
  apply list_elem_of_singleton in Hin. by subst.
Qed.

Lemma extract_user_content_last_witness :
  (∀ m, m ∈ empty_request → msg_role m ≠ "user")
  ∧ extract_user_content_from_messages empty_request = None.
Proof.
  split; [exact no_user_in_empty_request|].
  exact (proj2 (proj2 (extract_user_content_last empty_request
                         {| msg_role := "user"; msg_content := "" |}))
           no_user_in_empty_request).
Defined.

Lemma request_without_user_message_witness :
  (∀ m, m ∈ empty_request → msg_role m ≠ "user")
  ∧ create_chat_completion empty_request (agent waiting_task)
    = Raised "User message not found in messages" (agent waiting_task).
Proof.
  split; [exact no_user_in_empty_request|].
  exact (request_without_user_message empty_request (agent waiting_task)
           no_user_in_empty_request).
Defined.

End AgentProperties.

(** ** The other memory tools *)

Module MemToolProperties.

Import MemOS Scenario2.

(** *** get_size_tool.py *)

Lemma add_file_err (v : View) (dirpath : string) (filenames : list string)
    (e : PyException) :
  fold_left (GetSizeTool.add_file v dirpath) filenames (Err e) = Err e.
Proof. by induction filenames. Qed.

Lemma add_dir_err (v : View) (entries : list (string * list string * list string))
    (e : PyException) :
  fold_left (GetSizeTool.add_dir v) entries (Err e) = Err e.
Proof.
  induction entries as [|[[d ds] fs] entries IH]; [done|].
  cbn [fold_left GetSizeTool.add_dir]. by rewrite add_file_err.
Qed.

(** The only exceptions that leave the loops are those of [getsize] that
    are not an [OSError]. *)
Lemma add_files_escape (v : View) (dirpath : string) (filenames : list string)
    (t : Z) (e : PyException) :
  fold_left (GetSizeTool.add_file v dirpath) filenames (Ok t) = Err e →
  is_OSError e = false ∧ ∃ p, getsize v p = Err e.
Proof.
  revert t. induction filenames as [|f fs IH]; intros t; [done|].
  cbn [fold_left GetSizeTool.add_file].
  destruct (getsize v (PosixPath.join dirpath f)) as [n|e'] eqn:E; [apply IH|].
  destruct (is_OSError e') eqn:Hos; [apply IH|].
  rewrite add_file_err. intros [= <-]. eauto.
Qed.

Lemma add_dirs_escape (v : View) (entries : list (string * list string * list string))
    (t : Z) (e : PyException) :
  fold_left (GetSizeTool.add_dir v) entries (Ok t) = Err e →
  is_OSError e = false ∧ ∃ p, getsize v p = Err e.
Proof.
  revert t. induction entries as [|[[d ds] fs] entries IH]; intros t; [done|].
  cbn [fold_left GetSizeTool.add_dir].
  destruct (fold_left (GetSizeTool.add_file v d) fs (Ok t)) as [t'|e'] eqn:E.
  - apply IH.
  - rewrite add_dir_err. intros [= <-]. by apply add_files_escape in E.
Qed.

(** X21.  [GetSizeTool] on the empty path or on a directory never lets an
    [OSError] out: a file whose size cannot be read is passed over.  On a
    file it returns what [getsize] returns, errors included, and on a path
    that is neither it raises [FileNotFoundError]. *)
Theorem get_size_error_contract (v : View) (path : string) :
  (path = "" ∨ (isfile v path = false ∧ isdir v path = true) →
   ∀ e, GetSizeTool.__call__ v path = Err e →
        is_OSError e = false ∧ ∃ p, getsize v p = Err e)
  ∧ (path ≠ "" → isfile v path = true →
     GetSizeTool.__call__ v path = getsize v path)
  ∧ (path ≠ "" → isfile v path = false → isdir v path = false →
     GetSizeTool.__call__ v path
     = Err (FileNotFoundError ("Path not found: " +:+ path))).
Proof.
  unfold GetSizeTool.__call__. split; [|split].
  - intros [->|[Hfile Hdir]] e.
    + cbn. apply add_dirs_escape.
    + rewrite Hfile, Hdir.
      destruct (negb (Py.str_truthy path) || bool_decide (path = ""));
        apply add_dirs_escape.
  - intros Hne Hfile. destruct path; [done|]. cbn [Py.str_truthy negb orb].
    rewrite bool_decide_eq_false_2 by done. by rewrite Hfile.
  - intros Hne Hfile Hdir. destruct path; [done|]. cbn [Py.str_truthy negb orb].
    rewrite bool_decide_eq_false_2 by done. by rewrite Hfile, Hdir.
Qed.

Lemma get_size_error_contract_witness :
  "ghost.md" ≠ ""
  ∧ isfile memory_view "ghost.md" = false
  ∧ isdir memory_view "ghost.md" = false
  ∧ GetSizeTool.__call__ memory_view "ghost.md"
    = Err (FileNotFoundError "Path not found: ghost.md").
Proof.
  assert (H1 : "ghost.md" ≠ "") by discriminate.
  assert (H2 : isfile memory_view "ghost.md" = false) by (vm_compute; reflexivity).
  assert (H3 : isdir memory_view "ghost.md" = false) by (vm_compute; reflexivity).
  split; [exact H1|]. split; [exact H2|]. split; [exact H3|].
  exact (proj2 (proj2 (get_size_error_contract memory_view "ghost.md")) H1 H2 H3).
Defined.






(** *** utils.py *)

Lemma and_then_true (a b : Result bool) :
  Utils.and_then a b = Ok true → a = Ok true ∧ b = Ok true.
Proof. destruct a as [[]|]; by intros. Qed.

Lemma size_check_true (v : View) (limit : Z) (path : string) :
  match getsize v path with Ok n => Ok (n <=? limit) | Err e => Err e end = Ok true →
  ∃ n, getsize v path = Ok n ∧ n ≤ limit.
Proof.
  destruct (getsize v path) as [n|e]; [|done]. intros [= H].
  exists n. split; [done|lia].
Qed.

(** X23.  When [check_size_limits] answers [True], every limit that applies
    holds: the working directory is within the memory limit; a directory is
    within the directory limit; a file is within the file limit, and its
    parent directory, when the path has one, within the directory limit. *)
Theorem check_size_limits_sound
    (FILE_SIZE_LIMIT DIR_SIZE_LIMIT MEMORY_SIZE_LIMIT : Z) (v : View) (path : string) :
  Utils.check_size_limits FILE_SIZE_LIMIT DIR_SIZE_LIMIT MEMORY_SIZE_LIMIT v path
  = Ok true →
  (∃ n, getsize v (getcwd v) = Ok n ∧ n ≤ MEMORY_SIZE_LIMIT)
  ∧ (path ≠ "" → isdir v path = true →
     ∃ n, getsize v path = Ok n ∧ n ≤ DIR_SIZE_LIMIT)
  ∧ (path ≠ "" → isdir v path = false →
     isfile v path = true
     ∧ (∃ n, getsize v path = Ok n ∧ n ≤ FILE_SIZE_LIMIT)
     ∧ (PosixPath.dirname path ≠ "" →
        ∃ n, getsize v (PosixPath.dirname path) = Ok n ∧ n ≤ DIR_SIZE_LIMIT)).
Proof.
  unfold Utils.check_size_limits.
  destruct (bool_decide_reflect (path = "")) as [->|Hne].
  { intros H%size_check_true. split; [done|]. split; done. }
  destruct (isdir v path) eqn:Hdir.
  { intros [Hd Hm]%and_then_true.
    apply size_check_true in Hd, Hm. split; [done|]. split; done. }
  destruct (isfile v path) eqn:Hfile; [|done].
  destruct (bool_decide_reflect (PosixPath.dirname path = "")) as [Hpar|Hpar];
    cbn [negb].
  - intros [Hf Hm]%and_then_true. apply size_check_true in Hf, Hm.
    split; [done|]. split; [done|]. intros _ _. split; [done|]. split; done.
  - intros [[Hf Hd]%and_then_true Hm]%and_then_true.
    apply size_check_true in Hf, Hd, Hm.
    split; [done|]. split; [done|]. intros _ _. split; [done|]. split; done.
Qed.

Lemma check_size_limits_sound_witness :
  Utils.check_size_limits 100 5000 5000 memory_view "/memory/a.md" = Ok true
  ∧ ∃ n, getsize memory_view (getcwd memory_view) = Ok n ∧ n ≤ 5000.
Proof.
  assert (H : Utils.check_size_limits 100 5000 5000 memory_view "/memory/a.md"
              = Ok true) by (vm_compute; reflexivity).
  split; [exact H|].
  exact (proj1 (check_size_limits_sound 100 5000 5000 memory_view "/memory/a.md" H)).
Defined.

(** *** create_file_tool.py *)

Lemma prefix_append (a b : string) : String.prefix a (a +:+ b) = true.
Proof.
  induction a as [|c a IH]; [by destruct b|].
  change (String c a +:+ b) with (String c (a +:+ b)). cbn [String.prefix].
  by destruct (Ascii.ascii_dec c c).
Qed.

Section WithWorld.

Import CreateFileTool.

Variable w : World.
Variables FILE_SIZE_LIMIT DIR_SIZE_LIMIT MEMORY_SIZE_LIMIT : Z.
Variable uuid_hex : string.

(** A request is added to the history whether it succeeds or not. *)
Lemma perform_history (mu : Mutation) (h : History) :
  history_of (perform w mu h) = h ++ [mu].
Proof. unfold perform. by destruct (failure w h mu). Qed.

(** The handler always raises, with one of two messages, after at most one
    more request: the removal of the temporary file. *)
Lemma handler_raises (file_path : string) (temp : option string) (e : string)
    (h : History) :
  ∃ (msg : string) (h' : History),
    handler w file_path temp e h = Raised msg h'
    ∧ (String.prefix "Error creating file " msg = true
       ∨ String.prefix "Error removing temp file " msg = true)
    ∧ (h' = h ∨ ∃ t, temp = Some t ∧ h' = h ++ [Remove t]).
Proof.
  unfold handler, catch, observe, perform, mbind, M_bind, bind, Eff.raise,
    mret, M_ret, ret.
  destruct temp as [t|].
  - destruct (Py.str_truthy t && path_exists (view w h) t).
    + destruct (failure w h (Remove t)) as [e'|].
      * eexists _, _. split; [done|].
        split; [right; apply (prefix_append "Error removing temp file ")|eauto].
      * eexists _, _. split; [done|].
        split; [left; apply (prefix_append "Error creating file ")|eauto].
    + eexists _, _. split; [done|].
      split; [left; apply (prefix_append "Error creating file ")|eauto].
  - eexists _, _. split; [done|].
    split; [left; apply (prefix_append "Error creating file ")|eauto].
Qed.

(** Before the temporary file is named the tool asks for nothing but the
    creation of the parent directory. *)
Lemma prepare_history (file_path : string) (h : History) :
  history_of (prepare w uuid_hex file_path h) = h
  ∨ history_of (prepare w uuid_hex file_path h)
    = h ++ [Makedirs (PosixPath.dirname file_path)].
Proof.
  unfold prepare, observe, perform, mbind, M_bind, bind, mret, M_ret, ret.
  destruct (Py.str_truthy (PosixPath.dirname file_path)
            && negb (path_exists (view w h) (PosixPath.dirname file_path)));
    [|by left].
  destruct (failure w h (Makedirs (PosixPath.dirname file_path))); by right.
Qed.

(** X24.  [CreateFileTool] never returns [False]: it returns [True] or
    raises an exception whose message starts with ["Error creating file "] or
    with ["Error removing temp file "]. *)
Theorem create_file_true_or_raises (file_path content : string) (h : History) :
  match __call__ w FILE_SIZE_LIMIT DIR_SIZE_LIMIT MEMORY_SIZE_LIMIT uuid_hex
          file_path content h with
  | Returned b _ => b = true
  | Raised msg _ =>
      String.prefix "Error creating file " msg = true
      ∨ String.prefix "Error removing temp file " msg = true
  end.
Proof.
  unfold __call__.
  destruct (prepare w uuid_hex file_path h) as [temp h1|e h1].
  2: { destruct (handler_raises file_path None e h1) as (msg & h' & -> & Hmsg & _).
       exact Hmsg. }
  unfold catch.
  destruct (create w FILE_SIZE_LIMIT DIR_SIZE_LIMIT MEMORY_SIZE_LIMIT file_path
              content temp h1) as [b h2|e h2] eqn:Hcreate.
  2: { destruct (handler_raises file_path (Some temp) e h2)
         as (msg & h' & -> & Hmsg & _).
       exact Hmsg. }
  revert Hcreate.
  unfold create, observe_result, perform, mbind, M_bind, bind, Eff.raise,
    mret, M_ret, ret.
  repeat case_match; by intros [= <- _].
Qed.

(** X25.  When [CreateFileTool] returns, it has written the temporary file,
    found it within the limits, written the target with the same content and
    removed the temporary file, in this order and with nothing else after
    the parent directory was created. *)
Theorem create_file_success (file_path content : string) (h h' : History) (b : bool) :
  __call__ w FILE_SIZE_LIMIT DIR_SIZE_LIMIT MEMORY_SIZE_LIMIT uuid_hex
    file_path content h = Returned b h' →
  ∃ (pre : History) (temp : string),
    (pre = [] ∨ pre = [Makedirs (PosixPath.dirname file_path)])
    ∧ h' = h ++ pre ++ [Write temp content; Write file_path content; Remove temp]
    ∧ Utils.check_size_limits FILE_SIZE_LIMIT DIR_SIZE_LIMIT MEMORY_SIZE_LIMIT
        (view w (h ++ pre ++ [Write temp content])) temp = Ok true.
Proof.
  unfold __call__. intros Hcall.
  pose proof (prepare_history file_path h) as Hpre.
  destruct (prepare w uuid_hex file_path h) as [temp h1|e h1].
  2: { destruct (handler_raises file_path None e h1) as (msg & h2 & E & _).
       rewrite E in Hcall. discriminate. }
  cbn [history_of] in Hpre.
  assert (∃ pre, (pre = [] ∨ pre = [Makedirs (PosixPath.dirname file_path)])
                 ∧ h1 = h ++ pre) as (pre & Hp & ->).
  { destruct Hpre as [->| ->]; [exists []|eexists]; split; eauto.
    by rewrite app_nil_r. }
  exists pre, temp. split; [done|].
  unfold catch in Hcall.
  destruct (create w FILE_SIZE_LIMIT DIR_SIZE_LIMIT MEMORY_SIZE_LIMIT file_path
              content temp (h ++ pre)) as [b' h2|e h2] eqn:Hcreate.
  2: { destruct (handler_raises file_path (Some temp) e h2) as (msg & h3 & E & _).
       rewrite E in Hcall. discriminate. }
  injection Hcall as -> ->. revert Hcreate.
  unfold create, observe_result, perform, mbind, M_bind, bind, Eff.raise,
    mret, M_ret, ret.
  destruct (failure w (h ++ pre) (Write temp content)); [done|].
  destruct (Utils.check_size_limits FILE_SIZE_LIMIT DIR_SIZE_LIMIT MEMORY_SIZE_LIMIT
              (view w ((h ++ pre) ++ [Write temp content])) temp)
    as [[]|e] eqn:Hcheck.
  - destruct (failure w _ (Write file_path content)); [done|].
    destruct (failure w _ (Remove temp)); [done|].
    intros [= _ <-]. rewrite <- !app_assoc in *. by split.
  - by destruct (failure w _ (Remove temp)).
  - done.
Qed.

(** What [create] leaves behind when the size check does not pass. *)
Lemma create_without_pass (file_path content temp : string) (h1 : History) :
  Utils.check_size_limits FILE_SIZE_LIMIT DIR_SIZE_LIMIT MEMORY_SIZE_LIMIT
    (view w (h1 ++ [Write temp content])) temp ≠ Ok true →
  ∃ (e : string) (h2 : History),
    create w FILE_SIZE_LIMIT DIR_SIZE_LIMIT MEMORY_SIZE_LIMIT file_path content
      temp h1 = Raised e h2
    ∧ (h2 = h1 ++ [Write temp content]
       ∨ h2 = h1 ++ [Write temp content; Remove temp]).
Proof.
  intros Hcheck.
  unfold create, observe_result, perform, mbind, M_bind, bind, Eff.raise,
    mret, M_ret, ret.
  destruct (failure w h1 (Write temp content)); [eauto|].
  destruct (Utils.check_size_limits _ _ _ _ temp) as [[]|]; [done| |eauto].
  destruct (failure w _ (Remove temp));
    eexists _, _; (split; [done|]); right; by rewrite <- app_assoc.
Qed.

(** X26.  When the temporary file does not pass the size check, whether the
    check fails or raises, [CreateFileTool] does not write the target: all
    it asks for after the parent directory is the writing and the removal of
    the temporary file. *)
Theorem create_file_respects_limits
    (file_path content temp : string) (h h1 : History) :
  prepare w uuid_hex file_path h = Returned temp h1 →
  temp ≠ file_path →
  Utils.check_size_limits FILE_SIZE_LIMIT DIR_SIZE_LIMIT MEMORY_SIZE_LIMIT
    (view w (h1 ++ [Write temp content])) temp ≠ Ok true →
  ∃ new : History,
    history_of (__call__ w FILE_SIZE_LIMIT DIR_SIZE_LIMIT MEMORY_SIZE_LIMIT
                  uuid_hex file_path content h) = h ++ new
    ∧ ∀ mu, mu ∈ new →
        mu = Makedirs (PosixPath.dirname file_path)
        ∨ mu = Write temp content ∨ mu = Remove temp.
Proof.
  intros Hprep Hne Hcheck. unfold __call__.
  pose proof (prepare_history file_path h) as Hpre.
  rewrite Hprep in *. cbn [history_of] in Hpre.
  destruct (create_without_pass file_path content temp h1 Hcheck)
    as (e & h2 & Hcreate & Hh2).
  unfold catch. rewrite Hcreate.
  destruct (handler_raises file_path (Some temp) e h2) as (msg & h3 & -> & _ & Hh3).
  cbn [history_of].
  assert (∃ new, h3 = h ++ new
                 ∧ Forall (λ mu, mu = Makedirs (PosixPath.dirname file_path)
                                 ∨ mu = Write temp content ∨ mu = Remove temp) new)
    as (new & -> & Hall).
  { destruct Hh3 as [->|(t & [= <-] & ->)], Hh2 as [->| ->], Hpre as [->| ->];
      rewrite <- ?app_assoc; eexists; (split; [done|]);
      repeat (apply Forall_cons; split; [eauto|]); apply Forall_nil_2. }
  exists new. split; [done|]. by apply Forall_forall.
Qed.

End WithWorld.

Lemma create_file_success_witness :
  ∃ (pre : CreateFileTool.History) (temp : string),
    CreateFileTool.__call__ memory_world 100 5000 5000
      "0123abcd4567ef890123abcd4567ef89" "notes/new.md" "remember the milk" []
    = Returned true
        ([] ++ pre ++ [CreateFileTool.Write temp "remember the milk";
                       CreateFileTool.Write "notes/new.md" "remember the milk";
                       CreateFileTool.Remove temp])
    ∧ Utils.check_size_limits 100 5000 5000
        (CreateFileTool.view memory_world
           ([] ++ pre ++ [CreateFileTool.Write temp "remember the milk"])) temp
      = Ok true.
Proof.
  destruct (create_file_success memory_world 100 5000 5000
              "0123abcd4567ef890123abcd4567ef89" "notes/new.md" "remember the milk"
              [] _ true ltac:(vm_compute; reflexivity))
    as (pre & temp & _ & E & Hcheck).
  exists pre, temp. split; [|exact Hcheck].
  rewrite <- E. vm_compute. reflexivity.
Defined.

Lemma create_file_respects_limits_witness :
  ∃ new : CreateFileTool.History,
    CreateFileTool.history_of
      (CreateFileTool.__call__ memory_world 1 5000 5000
         "0123abcd4567ef890123abcd4567ef89" "notes/new.md" "remember the milk" [])
    = [] ++ new
    ∧ ∀ mu, mu ∈ new →
        mu = CreateFileTool.Makedirs (PosixPath.dirname "notes/new.md")
        ∨ mu = CreateFileTool.Write "/memory/notes/temp_0123abcd.txt"
                 "remember the milk"
        ∨ mu = CreateFileTool.Remove "/memory/notes/temp_0123abcd.txt".
Proof.
  refine (create_file_respects_limits memory_world 1 5000 5000
            "0123abcd4567ef890123abcd4567ef89" "notes/new.md" "remember the milk"
            "/memory/notes/temp_0123abcd.txt" []
            [CreateFileTool.Makedirs "notes"] _ _ _).
  - vm_compute. reflexivity.
  - discriminate.
  - vm_compute. discriminate.
Defined.

End MemToolProperties.
